(** * Inventory policy dashboard: a shallow embedding of [app.py]

    [app.py] is a Streamlit script.  On every run it loads two tables, reads
    the sidebar widgets, filters the forecast table for the selected SKU,
    recomputes the safety-stock / reorder-point policy for that SKU, renders a
    service-level comparison table, and recomputes the policy for the whole
    policy table with vectorised column arithmetic.

    Numbers.  Python [float] and [numpy.float64] values are modelled by the
    real numbers of the Standard Library: every arithmetic operation of the
    script is taken exactly (no rounding, no overflow, no NaN).  [np.sqrt] is
    the real square root; the lead-time slider only produces 1..21, where the
    two agree.  Python [int] is [Z]. *)

From Stdlib Require Import Reals Lra Lia List ZArith String Bool.
From Stdlib Require Import Sorting.Sorted Sorting.Permutation.
Import ListNotations.
Open Scope R_scope.

(** ** Python values and exceptions *)

(** The exception the model tracks is the [KeyError] of a failed dictionary
    subscript.  [round] raises [OverflowError] on an infinite float and
    [ValueError] on a NaN; every number of the model is a finite real, so
    these two have no counterpart here, and a property below that speaks of
    how a run ends says so only for the outcomes the model has. *)
Inductive exception : Type :=
| KeyError (key : R).

Inductive result (A : Type) : Type :=
| Ok (a : A)
| Raise (e : exception).
Arguments Ok {A} a.
Arguments Raise {A} e.

(** A [dict] with float keys.  Python dicts keep insertion order, which the
    comparison table iterates over, so the model is an association list. *)
Definition dict : Type := list (R * R).

(** [d[k]]: the value stored under a key equal to [k], else [KeyError]. *)
Fixpoint dict_getitem (d : dict) (k : R) : result R :=
  match d with
  | [] => Raise (KeyError k)
  | (k', v) :: d' => if Req_dec_T k k' then Ok v else dict_getitem d' k
  end.

(** [d.items()] *)
Definition dict_items (d : dict) : list (R * R) := d.

(** [np.sqrt] *)
Definition np_sqrt (x : R) : R := sqrt x.

(** [int(x)] on a float: truncation towards zero. *)
Definition py_int (x : R) : Z :=
  if Rle_dec 0 x then Int_part x else (- Int_part (- x))%Z.

(** [round(x)] on a finite float, one argument: the nearest integer, a tie
    going to the even neighbour. *)
Definition py_round (x : R) : Z :=
  let f := Int_part x in
  let d := x - IZR f in
  if Rlt_dec d (1 / 2) then f
  else if Rlt_dec (1 / 2) d then (f + 1)%Z
  else if Z.even f then f else (f + 1)%Z.

(** ** pandas Series of floats *)

Definition Series : Type := list R.

Definition Series_sum (s : Series) : R := fold_right Rplus 0 s.

(** [s.mean()] *)
Definition Series_mean (s : Series) : R :=
  Series_sum s / INR (List.length s).

(** [s.std()]: pandas uses the sample standard deviation (ddof = 1). *)
Definition Series_std (s : Series) : R :=
  let m := Series_mean s in
  sqrt (Series_sum (map (fun x => (x - m) * (x - m)) s)
        / (INR (List.length s) - 1)).

(** [c * s] and [s * c] with a scalar [c], and [s1 + s2] on two columns of
    the same frame (same index, so the sum is position by position). *)
Definition scalar_mul_Series (c : R) (s : Series) : Series :=
  map (fun x => c * x) s.

Definition Series_mul_scalar (s : Series) (c : R) : Series :=
  map (fun x => x * c) s.

Fixpoint Series_add (s1 s2 : Series) : Series :=
  match s1, s2 with
  | x :: s1', y :: s2' => (x + y) :: Series_add s1' s2'
  | _, _ => []
  end.

(** ** The policy computation of one SKU (lines 96-106) *)

(** The options of the service-level slider (line 64). *)
Definition service_levels : list R := [0.90; 0.95; 0.97; 0.99].

Definition z_map : dict :=
  [(0.90, 1.28); (0.95, 1.65); (0.97, 1.88); (0.99, 2.33)].

Record PolicyResult : Type := mkPolicyResult {
  safety_stock  : R;
  reorder_point : R;
  expected_hold : R;   (* holding cost *)
  expected_sout : R;   (* stockout cost *)
  total_cost    : R
}.

(** Lines 102-106, once [Z] (written [Z_] here, [Z] being the type of
    integers), [mu_d] and [sigma_d] are bound. *)
Definition policy_formula (Z_ mu_d sigma_d : R) (lead_time_days : Z)
    (holding_cost stockout_cost : R) : PolicyResult :=
  let safety_stock  := Z_ * sigma_d * np_sqrt (IZR lead_time_days) in
  let reorder_point := mu_d * IZR lead_time_days + safety_stock in
  let expected_hold := safety_stock * holding_cost in
  let expected_sout := sigma_d * 0.10 * stockout_cost in
  let total_cost    := expected_hold + expected_sout in
  mkPolicyResult safety_stock reorder_point expected_hold expected_sout
                 total_cost.

(** Lines 96-97 followed by lines 102-106: the subscript [z_map[service_level]]
    either binds [Z] or raises. *)
Definition policy_calculator (service_level mu_d sigma_d : R)
    (lead_time_days : Z) (holding_cost stockout_cost : R)
    : result PolicyResult :=
  match dict_getitem z_map service_level with
  | Ok Z_ => Ok (policy_formula Z_ mu_d sigma_d lead_time_days
                                holding_cost stockout_cost)
  | Raise e => Raise e
  end.

(** ** The two tables returned by [load_data] (lines 19-24) *)

Module Forecast.
(** One line of [sku_forecasts.csv]; [date] is a day number. *)
Record row : Type := mkRow {
  store_key  : string;
  prod_key   : string;
  date       : Z;
  prediction : R;
  upper_95   : R;
  lower_95   : R
}.
End Forecast.

Module Policy.
(** One line of [inventory_policy.csv]. *)
Record row : Type := mkRow {
  store_key : string;
  prod_key  : string;
  mu_d      : R;
  sigma_d   : R
}.
End Policy.

(** A frame is the list of its lines; [df["c"]] is the column of field [c]. *)
Definition column {A B : Type} (c : A -> B) (df : list A) : list B := map c df.

Inductive load_result : Type :=
| Loaded (forecasts : list Forecast.row) (interval_columns : bool)
         (policy : list Policy.row)
| LoadFailed (load_error : string).

(** ** Sidebar widgets (lines 56-79 and the checkbox of line 206) *)

Record Widgets : Type := mkWidgets {
  selected_store   : string;
  selected_product : string;
  service_level    : R;
  lead_time_days   : Z;
  holding_cost     : R;
  stockout_cost    : R;
  selected_store_only : bool
}.

(** What the widget declarations guarantee about the values they return:
    [select_slider] returns one of its options, [slider] a value between
    [min_value] and [max_value], [number_input] a value above [min_value]. *)
Definition widgets_in_range (w : Widgets) : Prop :=
  In (service_level w) service_levels /\
  (1 <= lead_time_days w <= 21)%Z /\
  0 <= holding_cost w /\
  0 <= stockout_cost w.

(** ** Filtering the forecasts of the selected SKU (lines 84-87) *)

Definition sku_mask (selected_store selected_product : string)
    (r : Forecast.row) : bool :=
  String.eqb (Forecast.store_key r) selected_store &&
  String.eqb (Forecast.prod_key r) selected_product.

Fixpoint insert_by_date (r : Forecast.row) (l : list Forecast.row)
    : list Forecast.row :=
  match l with
  | [] => [r]
  | r' :: l' =>
      if (Forecast.date r <=? Forecast.date r')%Z then r :: l
      else r' :: insert_by_date r l'
  end.

(** [df.sort_values("date")] *)
Definition sort_values_date (df : list Forecast.row) : list Forecast.row :=
  fold_right insert_by_date [] df.

Definition sku_df_of (forecasts : list Forecast.row)
    (selected_store selected_product : string) : list Forecast.row :=
  sort_values_date (filter (sku_mask selected_store selected_product) forecasts).

(** [df.empty] *)
Definition empty {A : Type} (df : list A) : bool :=
  match df with [] => true | _ :: _ => false end.

(** ** Demand statistics of the selected SKU (lines 99-100) *)

Definition mu_d_of (sku_df : list Forecast.row) : R :=
  Series_mean (column Forecast.prediction sku_df).

Definition sigma_d_of (sku_df : list Forecast.row) : R :=
  if (1 <? List.length sku_df)%nat
  then Series_std (column Forecast.prediction sku_df)
  else 5.0.

(** ** Service-level comparison rows (lines 182-186) *)

Module Comparison.
(** [Service_Level] is the integer printed in front of the percent sign. *)
Record row : Type := mkRow {
  Service_Level : Z;
  Safety_Stock  : Z;
  Reorder_Point : Z
}.
End Comparison.

Definition comparison_rows (mu_d sigma_d : R) (lead_time_days : Z)
    : list Comparison.row :=
  map (fun item : R * R =>
         let (sl, z) := item in
         let ss  := z * sigma_d * np_sqrt (IZR lead_time_days) in
         let rop := mu_d * IZR lead_time_days + ss in
         Comparison.mkRow (py_int (sl * 100)) (py_round ss) (py_round rop))
      (dict_items z_map).

(** ** The full policy table (lines 196-207) *)

Module Live.
(** [policy_live]: the copied policy table and the five added columns. *)
Record frame : Type := mkFrame {
  policy        : list Policy.row;
  safety_stock  : Series;
  reorder_point : Series;
  holding_cost  : Series;
  stockout_cost : Series;
  total_cost    : Series
}.
End Live.

Definition policy_live_of (Z_ : R) (lead_time_days : Z)
    (holding_cost stockout_cost : R) (policy : list Policy.row)
    : Live.frame :=
  let c_safety_stock :=
    Series_mul_scalar (scalar_mul_Series Z_ (column Policy.sigma_d policy))
                      (np_sqrt (IZR lead_time_days)) in
  let c_reorder_point :=
    Series_add (Series_mul_scalar (column Policy.mu_d policy)
                                  (IZR lead_time_days))
               c_safety_stock in
  let c_holding_cost := Series_mul_scalar c_safety_stock holding_cost in
  let c_stockout_cost :=
    Series_mul_scalar (Series_mul_scalar (column Policy.sigma_d policy) 0.10)
                      stockout_cost in
  let c_total_cost := Series_add c_holding_cost c_stockout_cost in
  Live.mkFrame policy c_safety_stock c_reorder_point c_holding_cost
               c_stockout_cost c_total_cost.

(** Line [i] of [policy_live], with its five computed cells gathered in a
    [PolicyResult]. *)
Definition live_result (df : Live.frame) (i : nat) : option PolicyResult :=
  match nth_error (Live.safety_stock df) i,
        nth_error (Live.reorder_point df) i,
        nth_error (Live.holding_cost df) i,
        nth_error (Live.stockout_cost df) i,
        nth_error (Live.total_cost df) i with
  | Some ss, Some rop, Some h, Some s, Some t =>
      Some (mkPolicyResult ss rop h s t)
  | _, _, _, _, _ => None
  end.

Module Display.
(** A line of [display_df], under the renamed column headers. *)
Record row : Type := mkRow {
  Store            : string;
  Product          : string;
  Avg_Daily_Demand : R;
  Safety_Stock     : R;
  Reorder_Point    : R;
  Holding_Cost     : R;
  Stockout_Cost    : R;
  Total_Cost       : R
}.
End Display.

Definition display_row (df : Live.frame) (i : nat) : option Display.row :=
  match nth_error (Live.policy df) i, live_result df i with
  | Some p, Some r =>
      Some (Display.mkRow (Policy.store_key p) (Policy.prod_key p)
              (Policy.mu_d p) (safety_stock r) (reorder_point r)
              (expected_hold r) (expected_sout r) (total_cost r))
  | _, _ => None
  end.

Definition display_df_of (df : Live.frame) (w : Widgets) : list Display.row :=
  let all :=
    flat_map (fun i => match display_row df i with
                       | Some r => [r]
                       | None => []
                       end)
             (seq 0 (List.length (Live.policy df))) in
  if selected_store_only w
  then filter (fun r => String.eqb (Display.Store r) (selected_store w)) all
  else all.

(** ** The script as a computation that logs its Streamlit calls

    A run appends the calls it makes to a log and ends in one of three ways:
    it reaches the end of the file, it calls [st.stop()], or an exception
    escapes.  Calls that only print fixed text (title, headers, dividers,
    captions) are left out of the log; a metric carries its number before it
    is formatted, and a message its text without the leading pictograph.
    The exception that can escape is the [KeyError] of line 97; a run whose
    figures overflow to a non-finite float, on which [round] fails at line
    186 after the metrics and the charts, is outside the model. *)

Inductive st_call : Type :=
| st_error (body : string)
| st_info (body : string)
| st_warning (body : string)
| st_metric (label : string) (value : R)
| st_plotly_forecast (x : list Z) (band : option (Series * Series))
                     (y : Series) (hline : R)
| st_plotly_cost (y : list R)
| st_dataframe_comparison (rows : list Comparison.row)
| st_dataframe_display (rows : list Display.row)
| st_download_button (rows : list Display.row).

Inductive outcome (A : Type) : Type :=
| Return (a : A)
| Stop
| Uncaught (e : exception).
Arguments Return {A} a.
Arguments Stop {A}.
Arguments Uncaught {A} e.

Definition script (A : Type) : Type := list st_call -> list st_call * outcome A.

Definition ret {A : Type} (a : A) : script A := fun log => (log, Return a).

Definition bind {A B : Type} (m : script A) (k : A -> script B) : script B :=
  fun log =>
    match m log with
    | (log', Return a) => k a log'
    | (log', Stop) => (log', Stop)
    | (log', Uncaught e) => (log', Uncaught e)
    end.

Definition call (c : st_call) : script unit :=
  fun log => (log ++ [c], Return tt).

Definition st_stop {A : Type} : script A := fun log => (log, Stop).

Definition lift {A : Type} (r : result A) : script A :=
  fun log =>
    match r with
    | Ok a => (log, Return a)
    | Raise e => (log, Uncaught e)
    end.

Notation "x <- m ;; k" := (bind m (fun x => k))
  (at level 61, m at next level, right associativity).
Notation "m ;; k" := (bind m (fun _ => k))
  (at level 61, right associativity).

Definition app (data : load_result) (w : Widgets) : script unit :=
  match data with
  | LoadFailed load_error =>
      call (st_error ("Could not load data files. Error: " ++ load_error)) ;;
      call (st_info "Make sure `sku_forecasts.csv` and `inventory_policy.csv` are in the same folder as `app.py`.") ;;
      st_stop
  | Loaded forecasts interval_columns policy =>
      let sku_df :=
        sku_df_of forecasts (selected_store w) (selected_product w) in
      (if empty sku_df
       then call (st_warning "No forecast data found for this store/product combination.") ;;
            st_stop
       else ret tt) ;;
      Z_ <- lift (dict_getitem z_map (service_level w)) ;;
      let mu_d := mu_d_of sku_df in
      let sigma_d := sigma_d_of sku_df in
      let r := policy_formula Z_ mu_d sigma_d (lead_time_days w)
                              (holding_cost w) (stockout_cost w) in
      call (st_metric "Avg Daily Forecast" mu_d) ;;
      call (st_metric "Safety Stock" (safety_stock r)) ;;
      call (st_metric "Reorder Point" (reorder_point r)) ;;
      call (st_metric "Est. Daily Total Cost" (total_cost r)) ;;
      call (st_plotly_forecast
              (column Forecast.date sku_df)
              (if interval_columns
               then Some (column Forecast.upper_95 sku_df,
                          column Forecast.lower_95 sku_df)
               else None)
              (column Forecast.prediction sku_df)
              (reorder_point r)) ;;
      call (st_plotly_cost [expected_hold r; expected_sout r; total_cost r]) ;;
      call (st_dataframe_comparison
              (comparison_rows mu_d sigma_d (lead_time_days w))) ;;
      let policy_live :=
        policy_live_of Z_ (lead_time_days w) (holding_cost w)
                       (stockout_cost w) policy in
      let display_df := display_df_of policy_live w in
      call (st_dataframe_display display_df) ;;
      call (st_download_button display_df)
  end.

(** One run of the script, from an empty page. *)
Definition run (data : load_result) (w : Widgets)
    : list st_call * outcome unit :=
  app data w [].

(** The calls of a log that show a computed policy figure. *)
Definition shows_policy (c : st_call) : bool :=
  match c with
  | st_error _ | st_info _ | st_warning _ => false
  | _ => true
  end.

(** ** The options of the two select boxes (lines 53-57) *)

(** [s.unique()]: the distinct values, in order of first appearance. *)
Fixpoint unique (l : list string) : list string :=
  match l with
  | [] => []
  | x :: l' => x :: filter (fun y => negb (String.eqb y x)) (unique l')
  end.

Fixpoint insert_sorted (x : string) (l : list string) : list string :=
  match l with
  | [] => [x]
  | y :: l' => if String.leb x y then x :: l else y :: insert_sorted x l'
  end.

(** [sorted(l)] on strings. *)
Definition sorted (l : list string) : list string :=
  fold_right insert_sorted [] l.

Definition stores_of (forecasts : list Forecast.row) : list string :=
  sorted (unique (column Forecast.store_key forecasts)).

Definition products_of (forecasts : list Forecast.row) : list string :=
  sorted (unique (column Forecast.prod_key forecasts)).

(** The orders the two sorts establish: dates ascending, strings ascending. *)
Definition date_le (a b : Forecast.row) : Prop :=
  (Forecast.date a <= Forecast.date b)%Z.

Definition string_le (a b : string) : Prop := String.leb a b = true.

(** ** Projections of a log *)

(** The policy tables shown, the payloads of the download button, the bars
    of the cost charts and the forecast charts (dates, predictions, reference
    line) of a log. *)
Definition display_tables (log : list st_call) : list (list Display.row) :=
  flat_map (fun c => match c with
                     | st_dataframe_display rows => [rows]
                     | _ => []
                     end) log.

Definition downloads (log : list st_call) : list (list Display.row) :=
  flat_map (fun c => match c with
                     | st_download_button rows => [rows]
                     | _ => []
                     end) log.

Definition cost_charts (log : list st_call) : list (list R) :=
  flat_map (fun c => match c with
                     | st_plotly_cost y => [y]
                     | _ => []
                     end) log.

Definition forecast_charts (log : list st_call)
    : list (list Z * option (Series * Series) * Series * R) :=
  flat_map (fun c => match c with
                     | st_plotly_forecast x band y hline =>
                         [(x, band, y, hline)]
                     | _ => []
                     end) log.

(** The line of [display_df] computed from one line of the policy table. *)
Definition display_of (Z_ : R) (lead_time_days : Z)
    (holding_cost stockout_cost : R) (p : Policy.row) : Display.row :=
  let r := policy_formula Z_ (Policy.mu_d p) (Policy.sigma_d p)
             lead_time_days holding_cost stockout_cost in
  Display.mkRow (Policy.store_key p) (Policy.prod_key p) (Policy.mu_d p)
    (safety_stock r) (reorder_point r) (expected_hold r) (expected_sout r)
    (total_cost r).

(** ** Specification-side vocabulary and sample data *)

(** The arithmetic mean and the sample standard deviation as statistics
    defines them, written without the pandas operations: the mean of
    x_1 .. x_n is their total divided by n, and the sample standard deviation
    is the square root of the sum of the squared deviations from the mean,
    divided by n - 1. *)
Fixpoint total (xs : list R) : R :=
  match xs with
  | [] => 0
  | x :: xs' => x + total xs'
  end.

Definition arithmetic_mean (xs : list R) : R :=
  total xs / INR (List.length xs).

Fixpoint squared_deviations (m : R) (xs : list R) : R :=
  match xs with
  | [] => 0
  | x :: xs' => (x - m) ^ 2 + squared_deviations m xs'
  end.

Definition sample_standard_deviation (xs : list R) : R :=
  sqrt (squared_deviations (arithmetic_mean xs) xs
        / (INR (List.length xs) - 1)).

(** The z-score table as the specification words it. *)
Definition z_table (service_level z : R) : Prop :=
  (service_level = 0.90 /\ z = 1.28) \/
  (service_level = 0.95 /\ z = 1.65) \/
  (service_level = 0.97 /\ z = 1.88) \/
  (service_level = 0.99 /\ z = 2.33).

Definition empty_warning : string :=
  "No forecast data found for this store/product combination.".

(** The four metrics of a log, in order. *)
Definition metrics (log : list st_call) : list (string * R) :=
  flat_map (fun c => match c with
                     | st_metric label value => [(label, value)]
                     | _ => []
                     end) log.

(** The comparison tables of a log. *)
Definition comparison_tables (log : list st_call)
    : list (list Comparison.row) :=
  flat_map (fun c => match c with
                     | st_dataframe_comparison rows => [rows]
                     | _ => []
                     end) log.

(** Two forecast lines that differ at most in their interval bounds. *)
Definition same_prediction (a b : Forecast.row) : Prop :=
  Forecast.store_key a = Forecast.store_key b /\
  Forecast.prod_key a = Forecast.prod_key b /\
  Forecast.date a = Forecast.date b /\
  Forecast.prediction a = Forecast.prediction b.

(** Sample tables and widget values for the worked instances below. *)
Definition policy_example : list Policy.row :=
  [Policy.mkRow "S1" "P1" 100 10; Policy.mkRow "S1" "P2" 40 0].

Definition forecasts_example : list Forecast.row :=
  [Forecast.mkRow "S1" "P1" 2 12 15 9;
   Forecast.mkRow "S1" "P1" 1 8 11 5;
   Forecast.mkRow "S2" "P2" 1 30 33 27].

Definition forecasts_example' : list Forecast.row :=
  [Forecast.mkRow "S1" "P1" 2 12 20 0;
   Forecast.mkRow "S1" "P1" 1 8 20 0;
   Forecast.mkRow "S2" "P2" 1 30 50 10].

Definition widgets_example (store product : string) : Widgets :=
  mkWidgets store product 0.95 7 0.50 5.00 true.

(** * Properties *)

(** ** Dictionary lookup *)

Lemma dict_getitem_Ok_In (d : dict) (k v : R) :
  dict_getitem d k = Ok v -> In (k, v) d.
Proof.
  induction d as [|[k' v'] d IH]; simpl.
  - discriminate.
  - destruct (Req_dec_T k k') as [->|Hne].
    + intros [= ->]. now left.
    + intros H. right. auto.
Qed.

Lemma dict_getitem_Raise (d : dict) (k : R) (e : exception) :
  dict_getitem d k = Raise e <-> e = KeyError k /\ ~ In k (map fst d).
Proof.
  induction d as [|[k' v'] d IH]; simpl.
  - split.
    + intros [= <-]. split; [reflexivity | tauto].
    + intros [-> _]. reflexivity.
  - destruct (Req_dec_T k k') as [->|Hne].
    + split; [discriminate | intros [_ H]; exfalso; apply H; now left].
    + rewrite IH. split; intros [He Hn]; (split; [exact He|]).
      * intros [Heq|Hin]; [now apply Hne | now apply Hn].
      * intros Hin. apply Hn. now right.
Qed.

Lemma z_map_keys : map fst z_map = service_levels.
Proof. reflexivity. Qed.

Ltac solve_lookup :=
  unfold z_map; simpl;
  repeat (match goal with
          | |- context [Req_dec_T ?a ?b] =>
              destruct (Req_dec_T a b); try lra
          end);
  try reflexivity.

Lemma z_map_090 : dict_getitem z_map 0.90 = Ok 1.28.
Proof. solve_lookup. Qed.

Lemma z_map_095 : dict_getitem z_map 0.95 = Ok 1.65.
Proof. solve_lookup. Qed.

Lemma z_map_097 : dict_getitem z_map 0.97 = Ok 1.88.
Proof. solve_lookup. Qed.

Lemma z_map_099 : dict_getitem z_map 0.99 = Ok 2.33.
Proof. solve_lookup. Qed.

Lemma z_map_in_range (sl : R) :
  In sl service_levels ->
  exists z, z_table sl z /\ dict_getitem z_map sl = Ok z.
Proof.
  unfold service_levels, z_table. simpl.
  intros [<-|[<-|[<-|[<-|[]]]]].
  - exists 1.28. split; [tauto | apply z_map_090].
  - exists 1.65. split; [tauto | apply z_map_095].
  - exists 1.88. split; [tauto | apply z_map_097].
  - exists 2.33. split; [tauto | apply z_map_099].
Qed.

Lemma sqrt_lead_time_nonneg (L : Z) : 0 <= np_sqrt (IZR L).
Proof. unfold np_sqrt. apply sqrt_pos. Qed.

Lemma policy_calculator_in_range (sl mu sigma : R) (L : Z) (h s : R) :
  In sl service_levels ->
  exists z, z_table sl z /\
            policy_calculator sl mu sigma L h s
            = Ok (policy_formula z mu sigma L h s).
Proof.
  intros Hin.
  destruct (z_map_in_range sl Hin) as (z & Hz & Hget).
  exists z. split; [exact Hz|].
  unfold policy_calculator. now rewrite Hget.
Qed.

(** ** C1: the single-SKU formulas *)

(** C1.  For every service level of the slider and every other input, the
    calculator returns the record whose fields are
    z * sigma_d * sqrt(lead_time_days), mu_d * lead_time_days + safety_stock,
    safety_stock * holding_cost, sigma_d * 0.10 * stockout_cost and
    holding + stockout, with z read from the table
    0.90 -> 1.28, 0.95 -> 1.65, 0.97 -> 1.88, 0.99 -> 2.33. *)
Theorem policy_calculator_formulas
    (sl mu sigma : R) (L : Z) (h s : R) :
  In sl service_levels ->
  exists z r,
    z_table sl z /\
    policy_calculator sl mu sigma L h s = Ok r /\
    safety_stock r = z * sigma * sqrt (IZR L) /\
    reorder_point r = mu * IZR L + safety_stock r /\
    expected_hold r = safety_stock r * h /\
    expected_sout r = sigma * 0.10 * s /\
    total_cost r = expected_hold r + expected_sout r.
Proof.
  intros Hin.
  destruct (policy_calculator_in_range sl mu sigma L h s Hin)
    as (z & Hz & Hcalc).
  exists z. eexists. split; [exact Hz|].
  split; [exact Hcalc|].
  unfold policy_formula, np_sqrt. simpl.
  repeat split; reflexivity.
Qed.

Lemma policy_calculator_formulas_witness :
  exists z r,
    z_table 0.95 z /\
    policy_calculator 0.95 100 10 7 0.50 5.00 = Ok r /\
    safety_stock r = z * 10 * sqrt (IZR 7) /\
    reorder_point r = 100 * IZR 7 + safety_stock r /\
    expected_hold r = safety_stock r * 0.50 /\
    expected_sout r = 10 * 0.10 * 5.00 /\
    total_cost r = expected_hold r + expected_sout r.
Proof.
  apply (policy_calculator_formulas 0.95 100 10 7 0.50 5.00).
  unfold service_levels. simpl. tauto.
Defined.

Lemma sqrt_7_bounds : 2.6457 < sqrt 7 < 2.6458.
Proof.
  split.
  - rewrite <- (sqrt_square 2.6457) by lra. apply sqrt_lt_1_alt. lra.
  - rewrite <- (sqrt_square 2.6458) by lra. apply sqrt_lt_1_alt.
    split; lra.
Qed.

(** The worked figures of the specification: mu_d = 100, sigma_d = 10, a
    lead time of 7 days and service level 0.95 give a safety stock of about
    43.65 and a reorder point of about 743.65. *)
Example policy_calculator_worked_figures :
  exists r,
    policy_calculator 0.95 100 10 7 0.50 5.00 = Ok r /\
    43.65 < safety_stock r < 43.66 /\
    743.65 < reorder_point r < 743.66.
Proof.
  unfold policy_calculator. rewrite z_map_095.
  eexists. split; [reflexivity|].
  simpl. unfold np_sqrt.
  pose proof sqrt_7_bounds as [Hlo Hhi].
  repeat split; lra.
Qed.

(** ** C3: safety stock grows with the service level *)

Lemma z_table_monotone (s1 s2 z1 z2 : R) :
  z_table s1 z1 -> z_table s2 z2 -> s1 <= s2 -> z1 <= z2.
Proof. unfold z_table. intros H1 H2 Hle. lra. Qed.

(** C3.  With sigma_d >= 0 and the lead time fixed, two service levels
    s1 <= s2 of the slider give safety stocks in the same order. *)
Theorem safety_stock_monotone_in_service_level
    (mu sigma : R) (L : Z) (h s s1 s2 : R) :
  0 <= sigma ->
  In s1 service_levels -> In s2 service_levels -> s1 <= s2 ->
  exists r1 r2,
    policy_calculator s1 mu sigma L h s = Ok r1 /\
    policy_calculator s2 mu sigma L h s = Ok r2 /\
    safety_stock r1 <= safety_stock r2.
Proof.
  intros Hsigma Hin1 Hin2 Hle.
  destruct (z_map_in_range s1 Hin1) as (z1 & Hz1 & Hget1).
  destruct (z_map_in_range s2 Hin2) as (z2 & Hz2 & Hget2).
  unfold policy_calculator. rewrite Hget1, Hget2.
  do 2 eexists. split; [reflexivity|]. split; [reflexivity|].
  simpl.
  pose proof (z_table_monotone _ _ _ _ Hz1 Hz2 Hle) as Hz.
  apply Rmult_le_compat_r; [apply sqrt_lead_time_nonneg|].
  apply Rmult_le_compat_r; assumption.
Qed.

Lemma safety_stock_monotone_in_service_level_witness :
  exists r1 r2,
    policy_calculator 0.90 100 10 7 0.50 5.00 = Ok r1 /\
    policy_calculator 0.99 100 10 7 0.50 5.00 = Ok r2 /\
    safety_stock r1 <= safety_stock r2.
Proof.
  apply (safety_stock_monotone_in_service_level 100 10 7 0.50 5.00 0.90 0.99).
  - lra.
  - unfold service_levels; simpl; tauto.
  - unfold service_levels; simpl; tauto.
  - lra.
Defined.

(** ** C5: the only failure is an unknown service level *)

Lemma policy_calculator_Ok_inv (sl mu sigma : R) (L : Z) (h s : R)
    (r : PolicyResult) :
  policy_calculator sl mu sigma L h s = Ok r ->
  exists z, dict_getitem z_map sl = Ok z /\
            r = policy_formula z mu sigma L h s.
Proof.
  unfold policy_calculator.
  destruct (dict_getitem z_map sl) as [z|e]; [|discriminate].
  intros [= <-]. exists z. split; reflexivity.
Qed.

Lemma policy_calculator_Raise_inv (sl mu sigma : R) (L : Z) (h s : R)
    (e : exception) :
  policy_calculator sl mu sigma L h s = Raise e <->
  dict_getitem z_map sl = Raise e.
Proof.
  unfold policy_calculator.
  destruct (dict_getitem z_map sl) as [z|e']; split;
    try discriminate; intros [= <-]; reflexivity.
Qed.

(** C5.  The calculator raises exactly when the service level is not one of
    0.90, 0.95, 0.97, 0.99, the exception being the [KeyError] of the failed
    table lookup; it returns a result exactly when the service level is one of
    the four.  No other input makes it fail, and no z-score is substituted
    for an unknown level. *)
Theorem policy_calculator_fails_iff_unknown_level
    (sl mu sigma : R) (L : Z) (h s : R) :
  (forall e, policy_calculator sl mu sigma L h s = Raise e <->
             e = KeyError sl /\ ~ In sl service_levels) /\
  ((exists r, policy_calculator sl mu sigma L h s = Ok r) <->
   In sl service_levels).
Proof.
  split.
  - intros e. rewrite policy_calculator_Raise_inv, dict_getitem_Raise.
    rewrite z_map_keys. reflexivity.
  - split.
    + intros [r Hr].
      apply policy_calculator_Ok_inv in Hr. destruct Hr as (z & Hget & _).
      apply dict_getitem_Ok_In in Hget.
      rewrite <- z_map_keys. change sl with (fst (sl, z)).
      now apply in_map.
    + intros Hin.
      destruct (policy_calculator_in_range sl mu sigma L h s Hin)
        as (z & _ & Hr).
      eexists. exact Hr.
Qed.

(** ** C2: the vectorised table computation agrees with the scalar one *)

Lemma nth_error_Series_add (s1 s2 : Series) (i : nat) :
  nth_error (Series_add s1 s2) i =
  match nth_error s1 i, nth_error s2 i with
  | Some x, Some y => Some (x + y)
  | _, _ => None
  end.
Proof.
  revert s2 i.
  induction s1 as [|x s1 IH]; intros [|y s2] [|i]; simpl; try reflexivity.
  - now destruct (nth_error s1 i).
  - apply IH.
Qed.

Lemma nth_error_scalar_mul_Series (c : R) (s : Series) (i : nat) :
  nth_error (scalar_mul_Series c s) i =
  option_map (fun x => c * x) (nth_error s i).
Proof. unfold scalar_mul_Series. apply nth_error_map. Qed.

Lemma nth_error_Series_mul_scalar (s : Series) (c : R) (i : nat) :
  nth_error (Series_mul_scalar s c) i =
  option_map (fun x => x * c) (nth_error s i).
Proof. unfold Series_mul_scalar. apply nth_error_map. Qed.

Lemma nth_error_column {A B : Type} (c : A -> B) (df : list A) (i : nat) :
  nth_error (column c df) i = option_map c (nth_error df i).
Proof. unfold column. apply nth_error_map. Qed.

(** Line [i] of the computed frame is the formula applied to line [i] of the
    policy table, and there is no line beyond the table. *)
Lemma live_result_policy_live_of
    (Z_ : R) (L : Z) (h s : R) (policy : list Policy.row) (i : nat) :
  live_result (policy_live_of Z_ L h s policy) i =
  option_map
    (fun row => policy_formula Z_ (Policy.mu_d row) (Policy.sigma_d row) L h s)
    (nth_error policy i).
Proof.
  unfold live_result, policy_live_of. simpl.
  repeat (rewrite ?nth_error_Series_add, ?nth_error_Series_mul_scalar,
                  ?nth_error_scalar_mul_Series, ?nth_error_column; simpl).
  destruct (nth_error policy i) as [row|]; reflexivity.
Qed.

(** C2.  For every policy table and every fixed set of parameters with a
    service level of the slider, each line of the vectorised computation holds
    exactly the result the single-SKU calculator returns on that line's
    (mu_d, sigma_d), and the computed frame has no other line. *)
Theorem batch_equals_scalar
    (sl : R) (L : Z) (h s : R) (policy : list Policy.row) :
  In sl service_levels ->
  exists Z_,
    dict_getitem z_map sl = Ok Z_ /\
    (forall i row,
        nth_error policy i = Some row ->
        exists r,
          policy_calculator sl (Policy.mu_d row) (Policy.sigma_d row) L h s
          = Ok r /\
          live_result (policy_live_of Z_ L h s policy) i = Some r) /\
    (forall i,
        nth_error policy i = None ->
        live_result (policy_live_of Z_ L h s policy) i = None).
Proof.
  intros Hin.
  destruct (z_map_in_range sl Hin) as (z & _ & Hget).
  exists z. split; [exact Hget|]. split.
  - intros i row Hrow.
    exists (policy_formula z (Policy.mu_d row) (Policy.sigma_d row) L h s).
    split.
    + unfold policy_calculator. now rewrite Hget.
    + rewrite live_result_policy_live_of, Hrow. reflexivity.
  - intros i Hnone.
    rewrite live_result_policy_live_of, Hnone. reflexivity.
Qed.

Lemma batch_equals_scalar_witness :
  exists Z_,
    dict_getitem z_map 0.95 = Ok Z_ /\
    (forall i row,
        nth_error policy_example i = Some row ->
        exists r,
          policy_calculator 0.95 (Policy.mu_d row) (Policy.sigma_d row)
                            7 0.50 5.00 = Ok r /\
          live_result (policy_live_of Z_ 7 0.50 5.00 policy_example) i
          = Some r) /\
    (forall i,
        nth_error policy_example i = None ->
        live_result (policy_live_of Z_ 7 0.50 5.00 policy_example) i = None).
Proof.
  apply (batch_equals_scalar 0.95 7 0.50 5.00 policy_example).
  unfold service_levels; simpl; tauto.
Defined.

(** ** C4: reorder point and lead time *)

Lemma z_table_pos (sl z : R) : z_table sl z -> 0 < z.
Proof. unfold z_table. lra. Qed.

Lemma np_sqrt_monotone (L1 L2 : Z) :
  (L1 <= L2)%Z -> np_sqrt (IZR L1) <= np_sqrt (IZR L2).
Proof.
  intros Hle. unfold np_sqrt. apply sqrt_le_1_alt. now apply IZR_le.
Qed.

(** C4, as stated, fails: with a negative mean demand the reorder point
    decreases when the lead time grows.  At service level 0.90, mu_d = -1,
    sigma_d = 0 and the default costs, lead time 1 gives -1 and lead time 2
    gives -2. *)
Lemma reorder_point_decreases_for_negative_demand :
  exists r1 r2,
    policy_calculator 0.90 (-1) 0 1 0.50 5.00 = Ok r1 /\
    policy_calculator 0.90 (-1) 0 2 0.50 5.00 = Ok r2 /\
    reorder_point r1 = -1 /\
    reorder_point r2 = -2 /\
    ~ reorder_point r1 <= reorder_point r2.
Proof.
  unfold policy_calculator. rewrite z_map_090.
  do 2 eexists. split; [reflexivity|]. split; [reflexivity|].
  simpl.
  assert (H1 : -1 * 1 + 1.28 * 0 * np_sqrt 1 = -1) by ring.
  assert (H2 : -1 * 2 + 1.28 * 0 * np_sqrt 2 = -2) by ring.
  rewrite H1, H2. repeat split; lra.
Qed.

(** C4, amended.  For mu_d >= 0 and sigma_d >= 0, every service level of the
    slider and lead times 1 <= L1 <= L2 <= 21, the reorder point computed with
    L1 is at most the one computed with L2. *)
Theorem reorder_point_monotone_in_lead_time
    (mu sigma sl : R) (L1 L2 : Z) (h s : R) :
  0 <= mu -> 0 <= sigma ->
  In sl service_levels ->
  (1 <= L1)%Z -> (L1 <= L2)%Z -> (L2 <= 21)%Z ->
  exists r1 r2,
    policy_calculator sl mu sigma L1 h s = Ok r1 /\
    policy_calculator sl mu sigma L2 h s = Ok r2 /\
    reorder_point r1 <= reorder_point r2.
Proof.
  intros Hmu Hsigma Hin H1 H12 H2.
  destruct (z_map_in_range sl Hin) as (z & Hz & Hget).
  unfold policy_calculator. rewrite Hget.
  do 2 eexists. split; [reflexivity|]. split; [reflexivity|].
  simpl.
  apply z_table_pos in Hz.
  pose proof (np_sqrt_monotone L1 L2 H12) as Hsqrt.
  pose proof (IZR_le _ _ H12) as HL.
  apply Rplus_le_compat.
  - now apply Rmult_le_compat_l.
  - apply Rmult_le_compat_l; [|exact Hsqrt].
    apply Rmult_le_pos; lra.
Qed.

Lemma reorder_point_monotone_in_lead_time_witness :
  exists r1 r2,
    policy_calculator 0.95 100 10 7 0.50 5.00 = Ok r1 /\
    policy_calculator 0.95 100 10 14 0.50 5.00 = Ok r2 /\
    reorder_point r1 <= reorder_point r2.
Proof.
  apply (reorder_point_monotone_in_lead_time 100 10 0.95 7 14 0.50 5.00).
  - lra.
  - lra.
  - unfold service_levels; simpl; tauto.
  - lia.
  - lia.
  - lia.
Defined.

(** ** C7: signs of the result fields *)

(** C7, as stated, fails: a negative mean demand gives a negative reorder
    point.  At service level 0.95, mu_d = -1, sigma_d = 0, lead time 7 and the
    default costs the reorder point is -7. *)
Lemma reorder_point_negative_for_negative_demand :
  exists r,
    policy_calculator 0.95 (-1) 0 7 0.50 5.00 = Ok r /\
    reorder_point r = -7 /\
    ~ 0 <= reorder_point r.
Proof.
  unfold policy_calculator. rewrite z_map_095.
  eexists. split; [reflexivity|].
  simpl.
  assert (H : -1 * 7 + 1.65 * 0 * np_sqrt 7 = -7) by ring.
  rewrite H. split; lra.
Qed.

(** C7, amended.  With sigma_d >= 0, a lead time >= 0 (the slider gives
    1..21), costs >= 0 and a service level of the slider, the calculator
    returns a result whose safety stock, holding cost, stockout cost and total
    cost are >= 0; its reorder point is >= 0 when moreover mu_d >= 0. *)
Theorem policy_result_nonneg
    (sl mu sigma : R) (L : Z) (h s : R) :
  In sl service_levels ->
  0 <= sigma -> (0 <= L)%Z -> 0 <= h -> 0 <= s ->
  exists r,
    policy_calculator sl mu sigma L h s = Ok r /\
    0 <= safety_stock r /\
    0 <= expected_hold r /\
    0 <= expected_sout r /\
    0 <= total_cost r /\
    (0 <= mu -> 0 <= reorder_point r).
Proof.
  intros Hin Hsigma HL Hh Hs.
  destruct (z_map_in_range sl Hin) as (z & Hz & Hget).
  unfold policy_calculator. rewrite Hget.
  eexists. split; [reflexivity|].
  simpl.
  apply z_table_pos in Hz.
  pose proof (sqrt_lead_time_nonneg L) as Hsqrt.
  pose proof (IZR_le _ _ HL) as HL'.
  assert (Hss : 0 <= z * sigma * np_sqrt (IZR L)).
  { apply Rmult_le_pos; [apply Rmult_le_pos; lra | exact Hsqrt]. }
  assert (Hhold : 0 <= z * sigma * np_sqrt (IZR L) * h).
  { now apply Rmult_le_pos. }
  assert (Hsout : 0 <= sigma * 0.10 * s).
  { apply Rmult_le_pos; [apply Rmult_le_pos; lra | exact Hs]. }
  repeat split; try assumption.
  - lra.
  - intros Hmu.
    assert (0 <= mu * IZR L) by (apply Rmult_le_pos; assumption).
    lra.
Qed.

Lemma policy_result_nonneg_witness :
  exists r,
    policy_calculator 0.95 100 10 7 0.50 5.00 = Ok r /\
    0 <= safety_stock r /\
    0 <= expected_hold r /\
    0 <= expected_sout r /\
    0 <= total_cost r /\
    (0 <= 100 -> 0 <= reorder_point r).
Proof.
  apply (policy_result_nonneg 0.95 100 10 7 0.50 5.00).
  - unfold service_levels; simpl; tauto.
  - lra.
  - lia.
  - lra.
  - lra.
Defined.

(** ** Runs of the script *)

Lemma insert_by_date_not_nil (r : Forecast.row) (l : list Forecast.row) :
  insert_by_date r l <> [].
Proof.
  destruct l as [|r' l]; simpl; [discriminate|].
  destruct (Forecast.date r <=? Forecast.date r')%Z; discriminate.
Qed.

Lemma sort_values_date_nil (df : list Forecast.row) :
  sort_values_date df = [] <-> df = [].
Proof.
  destruct df as [|r df]; simpl; [tauto|].
  split; [|discriminate].
  intros H. exfalso. revert H. apply insert_by_date_not_nil.
Qed.

Lemma length_insert_by_date (r : Forecast.row) (l : list Forecast.row) :
  List.length (insert_by_date r l) = S (List.length l).
Proof.
  induction l as [|r' l IH]; simpl; [reflexivity|].
  destruct (Forecast.date r <=? Forecast.date r')%Z; simpl; congruence.
Qed.

Lemma length_sort_values_date (df : list Forecast.row) :
  List.length (sort_values_date df) = List.length df.
Proof.
  induction df as [|r df IH]; simpl; [reflexivity|].
  rewrite length_insert_by_date. now f_equal.
Qed.

Lemma sku_mask_true (s p : string) (r : Forecast.row) :
  sku_mask s p r = true <->
  Forecast.store_key r = s /\ Forecast.prod_key r = p.
Proof.
  unfold sku_mask. rewrite andb_true_iff, !String.eqb_eq. reflexivity.
Qed.

Lemma filter_nil_iff {A : Type} (f : A -> bool) (l : list A) :
  filter f l = [] <-> forall x, In x l -> f x = false.
Proof.
  induction l as [|a l IH]; simpl.
  - split; [intros _ x [] | reflexivity].
  - destruct (f a) eqn:Hfa.
    + split; [discriminate|].
      intros H. specialize (H a (or_introl eq_refl)). congruence.
    + rewrite IH. split.
      * intros H x [<-|Hin]; auto.
      * intros H x Hin. apply H. now right.
Qed.

(** The filtered series is empty exactly when no forecast line carries both
    selected keys. *)
Lemma sku_df_of_nil (forecasts : list Forecast.row) (s p : string) :
  sku_df_of forecasts s p = [] <->
  forall r, In r forecasts ->
            ~ (Forecast.store_key r = s /\ Forecast.prod_key r = p).
Proof.
  unfold sku_df_of. rewrite sort_values_date_nil, filter_nil_iff.
  split; intros H r Hin.
  - rewrite <- sku_mask_true. rewrite (H r Hin). discriminate.
  - specialize (H r Hin). rewrite <- sku_mask_true in H.
    now destruct (sku_mask s p r).
Qed.

Lemma run_empty (forecasts : list Forecast.row) (ic : bool)
    (policy : list Policy.row) (w : Widgets) :
  sku_df_of forecasts (selected_store w) (selected_product w) = [] ->
  run (Loaded forecasts ic policy) w = ([st_warning empty_warning], Stop).
Proof.
  intros Hnil. unfold run, app. rewrite Hnil. reflexivity.
Qed.

Lemma run_KeyError (forecasts : list Forecast.row) (ic : bool)
    (policy : list Policy.row) (w : Widgets) (e : exception) :
  sku_df_of forecasts (selected_store w) (selected_product w) <> [] ->
  dict_getitem z_map (service_level w) = Raise e ->
  run (Loaded forecasts ic policy) w = ([], Uncaught e).
Proof.
  intros Hne Hget. unfold run, app. rewrite Hget.
  destruct (sku_df_of forecasts (selected_store w) (selected_product w))
    as [|r sku]; [congruence|].
  reflexivity.
Qed.

Lemma run_renders (forecasts : list Forecast.row) (ic : bool)
    (policy : list Policy.row) (w : Widgets) (Z_ : R) :
  let sku_df := sku_df_of forecasts (selected_store w) (selected_product w) in
  let r := policy_formula Z_ (mu_d_of sku_df) (sigma_d_of sku_df)
             (lead_time_days w) (holding_cost w) (stockout_cost w) in
  sku_df <> [] ->
  dict_getitem z_map (service_level w) = Ok Z_ ->
  snd (run (Loaded forecasts ic policy) w) = Return tt /\
  metrics (fst (run (Loaded forecasts ic policy) w)) =
    [("Avg Daily Forecast"%string, mu_d_of sku_df);
     ("Safety Stock"%string, safety_stock r);
     ("Reorder Point"%string, reorder_point r);
     ("Est. Daily Total Cost"%string, total_cost r)] /\
  comparison_tables (fst (run (Loaded forecasts ic policy) w)) =
    [comparison_rows (mu_d_of sku_df) (sigma_d_of sku_df) (lead_time_days w)].
Proof.
  intros sku_df r Hne Hget. subst r. unfold run, app. rewrite Hget.
  fold sku_df.
  destruct sku_df as [|r0 sku] eqn:Hsku; [congruence|].
  repeat split.
Qed.

(** ** C9: an empty selection *)

(** C9.  When no forecast line carries the selected (store_key, prod_key)
    pair, the run logs the empty-state warning and nothing else, and ends
    with [st.stop()]: no metric, chart or table is computed, no exception
    escapes, and no error box is shown.  This holds whatever the widgets
    hold, the service level included. *)
Theorem empty_selection_warns_and_stops
    (forecasts : list Forecast.row) (ic : bool) (policy : list Policy.row)
    (w : Widgets) :
  (forall r, In r forecasts ->
             ~ (Forecast.store_key r = selected_store w /\
                Forecast.prod_key r = selected_product w)) ->
  run (Loaded forecasts ic policy) w =
    ([st_warning
        "No forecast data found for this store/product combination."],
     Stop) /\
  filter shows_policy (fst (run (Loaded forecasts ic policy) w)) = [] /\
  (forall e, snd (run (Loaded forecasts ic policy) w) <> Uncaught e).
Proof.
  intros Hnone.
  apply sku_df_of_nil in Hnone.
  rewrite (run_empty forecasts ic policy w Hnone).
  split; [reflexivity|]. split; [reflexivity|].
  intros e. simpl. discriminate.
Qed.

Lemma empty_selection_warns_and_stops_witness :
  run (Loaded forecasts_example true policy_example)
      (widgets_example "S1" "P2") =
    ([st_warning
        "No forecast data found for this store/product combination."],
     Stop) /\
  filter shows_policy
    (fst (run (Loaded forecasts_example true policy_example)
              (widgets_example "S1" "P2"))) = [] /\
  (forall e,
      snd (run (Loaded forecasts_example true policy_example)
               (widgets_example "S1" "P2")) <> Uncaught e).
Proof.
  apply (empty_selection_warns_and_stops forecasts_example true
           policy_example (widgets_example "S1" "P2")).
  simpl. intros r [<-|[<-|[<-|[]]]] [H1 H2]; simpl in *; discriminate.
Defined.

(** ** C6: the deviation fed into the policy computation *)

Lemma Series_sum_total (s : Series) : Series_sum s = total s.
Proof.
  induction s as [|x s IH]; simpl; [reflexivity|].
  fold (Series_sum s). now rewrite IH.
Qed.

Lemma Series_mean_arithmetic_mean (s : Series) :
  Series_mean s = arithmetic_mean s.
Proof. unfold Series_mean, arithmetic_mean. now rewrite Series_sum_total. Qed.

Lemma Series_sum_squared_deviations (m : R) (s : Series) :
  Series_sum (map (fun x => (x - m) * (x - m)) s) = squared_deviations m s.
Proof.
  induction s as [|x s IH]; simpl; [reflexivity|].
  fold (Series_sum (map (fun x0 => (x0 - m) * (x0 - m)) s)).
  rewrite IH. ring.
Qed.

Lemma Series_std_sample (s : Series) :
  Series_std s = sample_standard_deviation s.
Proof.
  unfold Series_std, sample_standard_deviation.
  now rewrite Series_mean_arithmetic_mean, Series_sum_squared_deviations.
Qed.

Lemma squared_deviations_nonneg (m : R) (xs : list R) :
  0 <= squared_deviations m xs.
Proof.
  induction xs as [|x xs IH]; simpl; [lra|].
  pose proof (pow2_ge_0 (x - m)). lra.
Qed.

(** What the square root hides: the deviation is not negative and its
    square, times n - 1, is the sum of the squared deviations. *)
Lemma sample_standard_deviation_square (xs : list R) :
  (1 < List.length xs)%nat ->
  0 <= sample_standard_deviation xs /\
  sample_standard_deviation xs * sample_standard_deviation xs
  * (INR (List.length xs) - 1)
  = squared_deviations (arithmetic_mean xs) xs.
Proof.
  intros Hlen. unfold sample_standard_deviation.
  split; [apply sqrt_pos|].
  assert (Hn : 0 < INR (List.length xs) - 1).
  { apply lt_INR in Hlen. simpl in Hlen. lra. }
  rewrite sqrt_sqrt.
  - field. lra.
  - apply Rmult_le_pos; [apply squared_deviations_nonneg|].
    apply Rlt_le, Rinv_0_lt_compat, Hn.
Qed.

Lemma arithmetic_mean_pair (a b : R) : arithmetic_mean [a; b] = (a + b) / 2.
Proof. unfold arithmetic_mean. simpl. field. Qed.

Lemma sample_standard_deviation_pair (a b : R) :
  sample_standard_deviation [a; b] * sample_standard_deviation [a; b]
  = (a - b) * (a - b) / 2.
Proof.
  destruct (sample_standard_deviation_square [a; b]) as [_ H];
    [simpl; lia|].
  rewrite arithmetic_mean_pair in H. simpl in H.
  assert (H1 : 1 + 1 - 1 = 1) by ring. rewrite H1, Rmult_1_r in H.
  rewrite H. field.
Qed.

(** C6.  On a run that reaches the policy computation, the single-SKU
    result shown in the metrics is the calculator's result for a sigma_d that
    is the constant 5.0 when the filtered series has exactly one record, and
    the sample standard deviation of the series' predictions when it has more
    than one: a number >= 0 whose square, times n - 1, is the sum of the
    squared deviations of the predictions from their arithmetic mean; for two
    predictions a and b its square is (a - b)^2 / 2. *)
Theorem sigma_d_fallback_or_sample_std
    (forecasts : list Forecast.row) (ic : bool) (policy : list Policy.row)
    (w : Widgets) :
  let sku_df := sku_df_of forecasts (selected_store w) (selected_product w) in
  let predictions := column Forecast.prediction sku_df in
  In (service_level w) service_levels ->
  sku_df <> [] ->
  exists sigma r,
    (List.length sku_df = 1%nat -> sigma = 5.0) /\
    ((1 < List.length sku_df)%nat ->
     sigma = sample_standard_deviation predictions /\
     0 <= sigma /\
     sigma * sigma * (INR (List.length sku_df) - 1)
     = squared_deviations (arithmetic_mean predictions) predictions) /\
    (forall a b, predictions = [a; b] ->
                 sigma * sigma = (a - b) * (a - b) / 2) /\
    policy_calculator (service_level w) (mu_d_of sku_df) sigma
      (lead_time_days w) (holding_cost w) (stockout_cost w) = Ok r /\
    metrics (fst (run (Loaded forecasts ic policy) w)) =
      [("Avg Daily Forecast"%string, mu_d_of sku_df);
       ("Safety Stock"%string, safety_stock r);
       ("Reorder Point"%string, reorder_point r);
       ("Est. Daily Total Cost"%string, total_cost r)].
Proof.
  intros sku_df predictions Hin Hne.
  destruct (z_map_in_range _ Hin) as (z & _ & Hget).
  assert (Hlenp : List.length predictions = List.length sku_df).
  { unfold predictions, column. apply length_map. }
  assert (Hstd : (1 < List.length sku_df)%nat ->
                 sigma_d_of sku_df = sample_standard_deviation predictions).
  { intros Hlen. unfold sigma_d_of.
    apply Nat.ltb_lt in Hlen. rewrite Hlen. apply Series_std_sample. }
  exists (sigma_d_of sku_df). eexists.
  split; [|split; [|split; [|split]]].
  - intros Hlen. unfold sigma_d_of. rewrite Hlen. reflexivity.
  - intros Hlen. rewrite (Hstd Hlen). split; [reflexivity|].
    rewrite <- Hlenp. apply sample_standard_deviation_square.
    now rewrite Hlenp.
  - intros a b Hab. rewrite Hstd.
    + rewrite Hab. apply sample_standard_deviation_pair.
    + rewrite <- Hlenp, Hab. simpl. lia.
  - unfold policy_calculator. rewrite Hget. reflexivity.
  - apply (run_renders forecasts ic policy w z Hne Hget).
Qed.

Lemma sku_df_example_S2 :
  sku_df_of forecasts_example "S2" "P2" = [Forecast.mkRow "S2" "P2" 1 30 33 27].
Proof. reflexivity. Qed.

Lemma sku_df_example_S1 :
  sku_df_of forecasts_example "S1" "P1" =
  [Forecast.mkRow "S1" "P1" 1 8 11 5; Forecast.mkRow "S1" "P1" 2 12 15 9].
Proof. reflexivity. Qed.

Lemma sigma_d_fallback_or_sample_std_witness :
  let w := widgets_example "S2" "P2" in
  let sku_df := sku_df_of forecasts_example "S2" "P2" in
  let predictions := column Forecast.prediction sku_df in
  exists sigma r,
    (List.length sku_df = 1%nat -> sigma = 5.0) /\
    ((1 < List.length sku_df)%nat ->
     sigma = sample_standard_deviation predictions /\
     0 <= sigma /\
     sigma * sigma * (INR (List.length sku_df) - 1)
     = squared_deviations (arithmetic_mean predictions) predictions) /\
    (forall a b, predictions = [a; b] ->
                 sigma * sigma = (a - b) * (a - b) / 2) /\
    policy_calculator 0.95 (mu_d_of sku_df) sigma 7 0.50 5.00 = Ok r /\
    metrics (fst (run (Loaded forecasts_example true policy_example) w)) =
      [("Avg Daily Forecast"%string, mu_d_of sku_df);
       ("Safety Stock"%string, safety_stock r);
       ("Reorder Point"%string, reorder_point r);
       ("Est. Daily Total Cost"%string, total_cost r)].
Proof.
  apply (sigma_d_fallback_or_sample_std forecasts_example true policy_example
           (widgets_example "S2" "P2")).
  - unfold service_levels; simpl; tauto.
  - simpl. rewrite sku_df_example_S2. discriminate.
Defined.

(** The two records of store S1, product P1 predict 8 and 12: their mean is
    10 and their sample standard deviation is the square root of
    ((8 - 10)^2 + (12 - 10)^2) / 1 = 8. *)
Example statistics_of_two_records :
  mu_d_of (sku_df_of forecasts_example "S1" "P1") = 10 /\
  sigma_d_of (sku_df_of forecasts_example "S1" "P1") = sqrt 8.
Proof.
  rewrite sku_df_example_S1. split.
  - unfold mu_d_of, Series_mean. simpl. field.
  - unfold sigma_d_of, Series_std, Series_mean. simpl. f_equal. field.
Qed.

(** ** C10: the statistics come from the [prediction] column *)

Lemma sku_mask_same_prediction (s p : string) (a b : Forecast.row) :
  same_prediction a b -> sku_mask s p a = sku_mask s p b.
Proof.
  intros (Hs & Hp & _). unfold sku_mask. now rewrite Hs, Hp.
Qed.

Lemma filter_same_prediction (s p : string) (l1 l2 : list Forecast.row) :
  Forall2 same_prediction l1 l2 ->
  Forall2 same_prediction (filter (sku_mask s p) l1)
                          (filter (sku_mask s p) l2).
Proof.
  induction 1 as [|a b l1 l2 Hab Hl IH]; simpl.
  - constructor.
  - rewrite (sku_mask_same_prediction s p a b Hab).
    destruct (sku_mask s p b); [constructor|]; assumption.
Qed.

Lemma insert_same_prediction (a b : Forecast.row)
    (l1 l2 : list Forecast.row) :
  same_prediction a b ->
  Forall2 same_prediction l1 l2 ->
  Forall2 same_prediction (insert_by_date a l1) (insert_by_date b l2).
Proof.
  intros Hab Hl.
  induction Hl as [|a' b' l1 l2 Hab' Hl IH]; simpl.
  - constructor; [exact Hab | constructor].
  - assert (Hd : Forecast.date a = Forecast.date b) by apply Hab.
    assert (Hd' : Forecast.date a' = Forecast.date b') by apply Hab'.
    rewrite Hd, Hd'.
    destruct (Forecast.date b <=? Forecast.date b')%Z.
    + constructor; [exact Hab|]. constructor; assumption.
    + constructor; [exact Hab' | exact IH].
Qed.

Lemma sort_same_prediction (l1 l2 : list Forecast.row) :
  Forall2 same_prediction l1 l2 ->
  Forall2 same_prediction (sort_values_date l1) (sort_values_date l2).
Proof.
  induction 1 as [|a b l1 l2 Hab Hl IH]; simpl.
  - constructor.
  - now apply insert_same_prediction.
Qed.

Lemma column_same_prediction (l1 l2 : list Forecast.row) :
  Forall2 same_prediction l1 l2 ->
  column Forecast.prediction l1 = column Forecast.prediction l2 /\
  List.length l1 = List.length l2.
Proof.
  induction 1 as [|a b l1 l2 Hab Hl [IHc IHl]]; simpl.
  - split; reflexivity.
  - destruct Hab as (_ & _ & _ & Hv). split; congruence.
Qed.

Lemma sku_statistics_same_prediction
    (f1 f2 : list Forecast.row) (s p : string) :
  Forall2 same_prediction f1 f2 ->
  mu_d_of (sku_df_of f1 s p) = mu_d_of (sku_df_of f2 s p) /\
  sigma_d_of (sku_df_of f1 s p) = sigma_d_of (sku_df_of f2 s p) /\
  (sku_df_of f1 s p = [] <-> sku_df_of f2 s p = []).
Proof.
  intros H.
  pose proof (sort_same_prediction _ _ (filter_same_prediction s p _ _ H))
    as Hsku.
  fold (sku_df_of f1 s p) in Hsku. fold (sku_df_of f2 s p) in Hsku.
  destruct (column_same_prediction _ _ Hsku) as [Hcol Hlen].
  unfold mu_d_of, sigma_d_of. rewrite Hcol, Hlen.
  split; [reflexivity|]. split; [reflexivity|].
  inversion Hsku; subst; split; congruence.
Qed.

(** C10.  On a run with a non-empty filtered series, the mean demand shown
    and fed to the calculator is the arithmetic mean of the series'
    predictions: times their number it gives their total, for one prediction
    a it is a, for two predictions a and b it is (a + b) / 2.  With more than
    one record sigma_d is the sample standard deviation of the same column: a
    number >= 0 whose square, times n - 1, is the sum of the squared
    deviations from that mean.  The four metrics are unchanged when the
    interval bounds of the forecasts, the presence of the interval columns or
    the policy table change. *)
Theorem sku_statistics_from_predictions
    (forecasts forecasts' : list Forecast.row) (ic ic' : bool)
    (policy policy' : list Policy.row) (w : Widgets) :
  let sku_df := sku_df_of forecasts (selected_store w) (selected_product w) in
  let predictions := column Forecast.prediction sku_df in
  In (service_level w) service_levels ->
  sku_df <> [] ->
  Forall2 same_prediction forecasts forecasts' ->
  exists mu sigma r,
    mu = arithmetic_mean predictions /\
    mu * INR (List.length predictions) = total predictions /\
    (forall a, predictions = [a] -> mu = a) /\
    (forall a b, predictions = [a; b] -> mu = (a + b) / 2) /\
    ((1 < List.length sku_df)%nat ->
     sigma = sample_standard_deviation predictions /\
     0 <= sigma /\
     sigma * sigma * (INR (List.length predictions) - 1)
     = squared_deviations mu predictions) /\
    policy_calculator (service_level w) mu sigma (lead_time_days w)
      (holding_cost w) (stockout_cost w) = Ok r /\
    metrics (fst (run (Loaded forecasts ic policy) w)) =
      [("Avg Daily Forecast"%string, mu);
       ("Safety Stock"%string, safety_stock r);
       ("Reorder Point"%string, reorder_point r);
       ("Est. Daily Total Cost"%string, total_cost r)] /\
    metrics (fst (run (Loaded forecasts' ic' policy') w)) =
    metrics (fst (run (Loaded forecasts ic policy) w)).
Proof.
  intros sku_df predictions Hin Hne Hsame.
  destruct (z_map_in_range _ Hin) as (z & _ & Hget).
  destruct (sku_statistics_same_prediction forecasts forecasts'
              (selected_store w) (selected_product w) Hsame)
    as (Hmu & Hsigma & Hnil).
  assert (Hne' : sku_df_of forecasts' (selected_store w) (selected_product w)
                 <> []).
  { intros H. apply Hne. now apply Hnil. }
  destruct (run_renders forecasts ic policy w z Hne Hget) as (_ & Hm & _).
  destruct (run_renders forecasts' ic' policy' w z Hne' Hget) as (_ & Hm' & _).
  assert (Hlenp : List.length predictions = List.length sku_df).
  { unfold predictions, column. apply length_map. }
  assert (Hmean : mu_d_of sku_df = arithmetic_mean predictions).
  { unfold mu_d_of. apply Series_mean_arithmetic_mean. }
  assert (Hn : INR (List.length predictions) <> 0).
  { apply not_0_INR. rewrite Hlenp. destruct sku_df; [congruence|discriminate]. }
  exists (arithmetic_mean predictions), (sigma_d_of sku_df). eexists.
  split; [reflexivity|].
  split; [unfold arithmetic_mean; field; exact Hn|].
  split; [intros a Ha; rewrite Ha; unfold arithmetic_mean; simpl; field|].
  split; [intros a b Hab; rewrite Hab; apply arithmetic_mean_pair|].
  split; [|split; [|split]].
  - intros Hlen.
    assert (Hstd : sigma_d_of sku_df = sample_standard_deviation predictions).
    { unfold sigma_d_of. apply Nat.ltb_lt in Hlen. fold sku_df.
      rewrite Hlen. apply Series_std_sample. }
    rewrite Hstd. split; [reflexivity|].
    apply sample_standard_deviation_square. now rewrite Hlenp.
  - unfold policy_calculator. rewrite Hget. reflexivity.
  - rewrite Hm. fold sku_df. rewrite Hmean. reflexivity.
  - rewrite Hm, Hm'. rewrite <- Hmu, <- Hsigma. reflexivity.
Qed.

Lemma sku_statistics_from_predictions_witness :
  let w := widgets_example "S1" "P1" in
  let sku_df := sku_df_of forecasts_example "S1" "P1" in
  let predictions := column Forecast.prediction sku_df in
  exists mu sigma r,
    mu = arithmetic_mean predictions /\
    mu * INR (List.length predictions) = total predictions /\
    (forall a, predictions = [a] -> mu = a) /\
    (forall a b, predictions = [a; b] -> mu = (a + b) / 2) /\
    ((1 < List.length sku_df)%nat ->
     sigma = sample_standard_deviation predictions /\
     0 <= sigma /\
     sigma * sigma * (INR (List.length predictions) - 1)
     = squared_deviations mu predictions) /\
    policy_calculator 0.95 mu sigma 7 0.50 5.00 = Ok r /\
    metrics (fst (run (Loaded forecasts_example true policy_example) w)) =
      [("Avg Daily Forecast"%string, mu);
       ("Safety Stock"%string, safety_stock r);
       ("Reorder Point"%string, reorder_point r);
       ("Est. Daily Total Cost"%string, total_cost r)] /\
    metrics (fst (run (Loaded forecasts_example' false []) w)) =
    metrics (fst (run (Loaded forecasts_example true policy_example) w)).
Proof.
  apply (sku_statistics_from_predictions forecasts_example forecasts_example'
           true false policy_example [] (widgets_example "S1" "P1")).
  - unfold service_levels; simpl; tauto.
  - simpl. rewrite sku_df_example_S1. discriminate.
  - unfold forecasts_example, forecasts_example'.
    repeat (constructor; [repeat split|]). constructor.
Defined.

(** ** C8: the service-level comparison table *)

Lemma Int_part_between (n : Z) (x : R) :
  IZR n <= x < IZR n + 1 -> Int_part x = n.
Proof.
  intros [Hlo Hhi]. symmetry. apply Int_part_spec. lra.
Qed.

Lemma py_int_IZR (n : Z) (x : R) :
  (0 <= n)%Z -> x = IZR n -> py_int x = n.
Proof.
  intros Hn ->. unfold py_int.
  destruct (Rle_dec 0 (IZR n)) as [_|Hneg].
  - apply Int_part_between. lra.
  - exfalso. apply Hneg. now apply IZR_le.
Qed.

(** [round] returns the integer that lies less than one half away. *)
Lemma py_round_nearest (n : Z) (x : R) :
  IZR n - 1 / 2 < x < IZR n + 1 / 2 -> py_round x = n.
Proof.
  intros [Hlo Hhi]. unfold py_round.
  destruct (Rle_dec (IZR n) x) as [Hge|Hlt].
  - rewrite (Int_part_between n x) by lra.
    destruct (Rlt_dec (x - IZR n) (1 / 2)); [reflexivity | lra].
  - assert (Hf : Int_part x = (n - 1)%Z).
    { apply Int_part_between. rewrite minus_IZR. lra. }
    rewrite Hf, minus_IZR.
    destruct (Rlt_dec (x - (IZR n - 1)) (1 / 2)); [lra|].
    destruct (Rlt_dec (1 / 2) (x - (IZR n - 1))); [lia | lra].
Qed.

Lemma np_sqrt_1 : np_sqrt (IZR 1) = 1.
Proof. unfold np_sqrt. apply sqrt_1. Qed.

(** C8, as stated, fails: an entry of the table is not the calculator's
    result.  It has no cost field, and its two figures are rounded to
    integers: for mu_d = 10, sigma_d = 1 and lead time 1, the entry of
    service level 0.90 shows safety stock 1 and reorder point 11, where the
    calculator returns 1.28 and 11.28. *)
Lemma comparison_entry_is_rounded :
  exists row r,
    nth_error (comparison_rows 10 1 1) 0 = Some row /\
    policy_calculator 0.90 10 1 1 0.50 5.00 = Ok r /\
    Comparison.Safety_Stock row = 1%Z /\ safety_stock r = 1.28 /\
    Comparison.Reorder_Point row = 11%Z /\ reorder_point r = 11.28 /\
    IZR (Comparison.Safety_Stock row) <> safety_stock r /\
    IZR (Comparison.Reorder_Point row) <> reorder_point r.
Proof.
  unfold policy_calculator. rewrite z_map_090.
  do 2 eexists. split; [reflexivity|]. split; [reflexivity|].
  simpl. change (np_sqrt 1) with (np_sqrt (IZR 1)). rewrite np_sqrt_1.
  assert (Hss : 1.28 * 1 * 1 = 1.28) by lra.
  assert (Hrop : 10 * 1 + 1.28 = 11.28) by lra.
  rewrite Hss, Hrop.
  rewrite (py_round_nearest 1 1.28) by lra.
  rewrite (py_round_nearest 11 11.28) by lra.
  repeat split; try reflexivity; lra.
Qed.

(** C8, amended.  The comparison table has one entry per service level of
    the table 0.90, 0.95, 0.97, 0.99, in that order and whatever level is
    selected; the entry of a level holds the level as a whole percentage and
    the safety stock and reorder point the calculator returns for that level,
    each rounded to the nearest integer.  It holds no cost figure. *)
Theorem comparison_rows_per_service_level
    (mu sigma : R) (L : Z) (h s : R) :
  Forall2
    (fun sl row =>
       exists r,
         policy_calculator sl mu sigma L h s = Ok r /\
         Comparison.Service_Level row = py_int (sl * 100) /\
         Comparison.Safety_Stock row = py_round (safety_stock r) /\
         Comparison.Reorder_Point row = py_round (reorder_point r))
    service_levels (comparison_rows mu sigma L) /\
  map Comparison.Service_Level (comparison_rows mu sigma L)
  = [90; 95; 97; 99]%Z.
Proof.
  split.
  - unfold service_levels, comparison_rows, dict_items, z_map.
    unfold policy_calculator. simpl map.
    constructor; [rewrite z_map_090; eexists; repeat split|].
    constructor; [rewrite z_map_095; eexists; repeat split|].
    constructor; [rewrite z_map_097; eexists; repeat split|].
    constructor; [rewrite z_map_099; eexists; repeat split|].
    constructor.
  - unfold comparison_rows, dict_items, z_map. simpl.
    rewrite (py_int_IZR 90), (py_int_IZR 95), (py_int_IZR 97),
            (py_int_IZR 99); try lia; try lra.
    reflexivity.
Qed.

Lemma policy_calculator_fails_iff_unknown_level_witness :
  policy_calculator 0.5 100 10 7 0.50 5.00 = Raise (KeyError 0.5) /\
  exists r, policy_calculator 0.97 100 10 7 0.50 5.00 = Ok r.
Proof.
  split.
  - apply (proj1 (policy_calculator_fails_iff_unknown_level
                    0.5 100 10 7 0.50 5.00)).
    split; [reflexivity|].
    unfold service_levels. simpl. intros [H|[H|[H|[H|[]]]]]; lra.
  - apply (proj2 (policy_calculator_fails_iff_unknown_level
                    0.97 100 10 7 0.50 5.00)).
    unfold service_levels. simpl. tauto.
Defined.

(** * Further properties of the script *)

(** ** The filtered series (lines 84-87) *)

Lemma insert_by_date_HdRel (r a : Forecast.row) (l : list Forecast.row) :
  date_le a r -> HdRel date_le a l -> HdRel date_le a (insert_by_date r l).
Proof.
  intros Har Hhd. destruct l as [|b l]; simpl.
  - now constructor.
  - destruct (Forecast.date r <=? Forecast.date b)%Z; constructor.
    + exact Har.
    + now inversion Hhd.
Qed.

Lemma insert_by_date_Sorted (r : Forecast.row) (l : list Forecast.row) :
  Sorted date_le l -> Sorted date_le (insert_by_date r l).
Proof.
  induction 1 as [|a l Hs IH Hhd]; simpl.
  - repeat constructor.
  - destruct (Forecast.date r <=? Forecast.date a)%Z eqn:Hle.
    + constructor; [now constructor|].
      constructor. unfold date_le. lia.
    + constructor; [exact IH|].
      apply insert_by_date_HdRel; [|exact Hhd].
      unfold date_le. lia.
Qed.

Lemma sort_values_date_Sorted (df : list Forecast.row) :
  Sorted date_le (sort_values_date df).
Proof.
  induction df as [|r df IH]; simpl.
  - constructor.
  - now apply insert_by_date_Sorted.
Qed.

Lemma insert_by_date_Permutation (r : Forecast.row) (l : list Forecast.row) :
  Permutation (insert_by_date r l) (r :: l).
Proof.
  induction l as [|a l IH]; simpl.
  - reflexivity.
  - destruct (Forecast.date r <=? Forecast.date a)%Z.
    + reflexivity.
    + rewrite IH. apply perm_swap.
Qed.

Lemma sort_values_date_Permutation (df : list Forecast.row) :
  Permutation (sort_values_date df) df.
Proof.
  induction df as [|r df IH]; simpl.
  - constructor.
  - rewrite insert_by_date_Permutation. now constructor.
Qed.

Lemma sku_df_of_In (forecasts : list Forecast.row) (s p : string)
    (r : Forecast.row) :
  In r (sku_df_of forecasts s p) <->
  In r forecasts /\ Forecast.store_key r = s /\ Forecast.prod_key r = p.
Proof.
  rewrite <- sku_mask_true, <- filter_In. unfold sku_df_of.
  split; apply Permutation_in;
    [apply sort_values_date_Permutation
    | symmetry; apply sort_values_date_Permutation].
Qed.

(** The series handed to the statistics and to the chart is in date order:
    each record's date is at most the date of the record after it. *)
Theorem sku_df_sorted_by_date (forecasts : list Forecast.row) (s p : string) :
  Sorted date_le (sku_df_of forecasts s p).
Proof. unfold sku_df_of. apply sort_values_date_Sorted. Qed.

(** The series holds exactly the forecast lines that carry both selected
    keys, each as many times as the table has it: sorting neither drops nor
    invents a record. *)
Theorem sku_df_keeps_matching_rows
    (forecasts : list Forecast.row) (s p : string) :
  Permutation (sku_df_of forecasts s p) (filter (sku_mask s p) forecasts) /\
  (forall r, In r (sku_df_of forecasts s p) <->
             In r forecasts /\
             Forecast.store_key r = s /\ Forecast.prod_key r = p) /\
  (List.length (sku_df_of forecasts s p) <= List.length forecasts)%nat.
Proof.
  pose proof (sort_values_date_Permutation (filter (sku_mask s p) forecasts))
    as Hperm.
  fold (sku_df_of forecasts s p) in Hperm.
  split; [exact Hperm|]. split.
  - intros r. apply sku_df_of_In.
  - rewrite (Permutation_length Hperm). apply filter_length_le.
Qed.

(** ** The select-box options (lines 53-54) *)

Lemma insert_sorted_In (x y : string) (l : list string) :
  In y (insert_sorted x l) <-> y = x \/ In y l.
Proof.
  induction l as [|a l IH]; simpl.
  - intuition congruence.
  - destruct (String.leb x a); simpl; [intuition congruence|].
    rewrite IH. intuition congruence.
Qed.

Lemma sorted_In (y : string) (l : list string) : In y (sorted l) <-> In y l.
Proof.
  induction l as [|a l IH]; simpl; [tauto|].
  rewrite insert_sorted_In, IH. intuition congruence.
Qed.

Lemma insert_sorted_Sorted (x : string) (l : list string) :
  Sorted string_le l -> Sorted string_le (insert_sorted x l).
Proof.
  induction 1 as [|a l Hs IH Hhd]; simpl.
  - repeat constructor.
  - destruct (String.leb x a) eqn:Hle.
    + constructor; [now constructor|]. now constructor.
    + constructor; [exact IH|].
      assert (Hax : string_le a x).
      { destruct (String.leb_total x a) as [H|H]; [congruence | exact H]. }
      destruct l as [|b l]; simpl.
      * now constructor.
      * destruct (String.leb x b); constructor;
          [exact Hax | now inversion Hhd].
Qed.

Lemma sorted_Sorted (l : list string) : Sorted string_le (sorted l).
Proof.
  induction l as [|a l IH]; simpl.
  - constructor.
  - now apply insert_sorted_Sorted.
Qed.

Lemma insert_sorted_NoDup (x : string) (l : list string) :
  ~ In x l -> NoDup l -> NoDup (insert_sorted x l).
Proof.
  intros Hx Hnd. revert Hx.
  induction Hnd as [|a l Ha Hnd IH]; simpl; intros Hx.
  - repeat constructor. tauto.
  - destruct (String.leb x a).
    + constructor; [exact Hx | now constructor].
    + constructor.
      * rewrite insert_sorted_In. intuition congruence.
      * apply IH. tauto.
Qed.

Lemma sorted_NoDup (l : list string) : NoDup l -> NoDup (sorted l).
Proof.
  induction 1 as [|a l Ha Hnd IH]; simpl.
  - constructor.
  - apply insert_sorted_NoDup; [now rewrite sorted_In | exact IH].
Qed.

Lemma unique_In (y : string) (l : list string) : In y (unique l) <-> In y l.
Proof.
  induction l as [|a l IH]; simpl; [tauto|].
  rewrite filter_In, IH, negb_true_iff, String.eqb_neq.
  destruct (String.eqb_spec y a) as [->|Hne]; intuition congruence.
Qed.

Lemma unique_NoDup (l : list string) : NoDup (unique l).
Proof.
  induction l as [|a l IH]; simpl.
  - constructor.
  - constructor.
    + rewrite filter_In, String.eqb_refl. simpl. intros [_ H]. discriminate.
    + now apply NoDup_filter.
Qed.

(** The store options are in ascending order, list no store twice, and offer
    exactly the stores that occur in the forecast table; likewise for the
    products. *)
Theorem select_options_sorted_distinct_complete
    (forecasts : list Forecast.row) :
  Sorted string_le (stores_of forecasts) /\
  NoDup (stores_of forecasts) /\
  (forall s, In s (stores_of forecasts) <->
             exists r, In r forecasts /\ Forecast.store_key r = s) /\
  Sorted string_le (products_of forecasts) /\
  NoDup (products_of forecasts) /\
  (forall p, In p (products_of forecasts) <->
             exists r, In r forecasts /\ Forecast.prod_key r = p).
Proof.
  unfold stores_of, products_of, column.
  repeat split;
    try apply sorted_Sorted;
    try (apply sorted_NoDup, unique_NoDup);
    rewrite ?sorted_In, ?unique_In, ?in_map_iff;
    intros (r & H1 & H2); exists r; tauto.
Qed.

(** ** How a run ends (lines 26-46 and 89-97) *)

Lemma z_map_lookup_cases (sl : R) :
  (exists z, dict_getitem z_map sl = Ok z /\ In sl service_levels) \/
  (dict_getitem z_map sl = Raise (KeyError sl) /\ ~ In sl service_levels).
Proof.
  destruct (dict_getitem z_map sl) as [z|e] eqn:Hget.
  - left. exists z. split; [reflexivity|].
    apply dict_getitem_Ok_In in Hget.
    rewrite <- z_map_keys. change sl with (fst (sl, z)). now apply in_map.
  - right. apply dict_getitem_Raise in Hget. rewrite z_map_keys in Hget.
    destruct Hget as [-> Hn]. split; [reflexivity | exact Hn].
Qed.

(** With the data loaded, a run ends in [st.stop()] exactly when the selection
    is empty, whatever the service level; it ends in the [KeyError] of the
    service-level lookup exactly when the selection is not empty and the level
    is not a key of the table; and a run that reaches the end of the script
    had a non-empty selection and a level of the table. *)
Theorem run_outcome_loaded
    (forecasts : list Forecast.row) (ic : bool) (policy : list Policy.row)
    (w : Widgets) :
  let sku_df := sku_df_of forecasts (selected_store w) (selected_product w) in
  let out := snd (run (Loaded forecasts ic policy) w) in
  (out = Stop <-> sku_df = []) /\
  (out = Uncaught (KeyError (service_level w)) <->
   sku_df <> [] /\ ~ In (service_level w) service_levels) /\
  (out = Return tt ->
   sku_df <> [] /\ In (service_level w) service_levels).
Proof.
  intros sku_df out. subst out sku_df.
  destruct (sku_df_of forecasts (selected_store w) (selected_product w))
    as [|r0 sku] eqn:Hsku.
  - rewrite (run_empty forecasts ic policy w Hsku). simpl.
    split; [tauto|]. split; [|discriminate].
    split; [discriminate | intros [H _]; congruence].
  - assert (Hne : sku_df_of forecasts (selected_store w) (selected_product w)
                  <> []) by (rewrite Hsku; discriminate).
    destruct (z_map_lookup_cases (service_level w))
      as [(z & Hget & Hin)|(Hget & Hnin)].
    + destruct (run_renders forecasts ic policy w z Hne Hget) as (Hout & _).
      rewrite Hout.
      split; [split; discriminate|].
      split; [split; [discriminate | intros [_ Hn]; contradiction]|].
      intros _. split; [discriminate | exact Hin].
    + rewrite (run_KeyError forecasts ic policy w _ Hne Hget). simpl.
      split; [split; discriminate|].
      split; [|discriminate].
      split; [intros _; split; [discriminate | exact Hnin] | reflexivity].
Qed.

(** A run that ends in [st.stop()], because the data failed to load or the
    selection is empty, or in the [KeyError] of the service-level lookup,
    shows no policy figure at all: no metric, chart or table is logged before
    it ends. *)
Theorem no_output_before_stop_or_KeyError (data : load_result) (w : Widgets) :
  snd (run data w) = Stop \/
  snd (run data w) = Uncaught (KeyError (service_level w)) ->
  filter shows_policy (fst (run data w)) = [].
Proof.
  destruct data as [forecasts ic policy | load_error]; [|reflexivity].
  intros Hout.
  destruct (sku_df_of forecasts (selected_store w) (selected_product w))
    as [|r0 sku] eqn:Hsku.
  - now rewrite (run_empty forecasts ic policy w Hsku).
  - assert (Hne : sku_df_of forecasts (selected_store w) (selected_product w)
                  <> []) by (rewrite Hsku; discriminate).
    destruct (z_map_lookup_cases (service_level w))
      as [(z & Hget & _)|(Hget & _)].
    + destruct (run_renders forecasts ic policy w z Hne Hget) as (Hret & _).
      rewrite Hret in Hout. destruct Hout; discriminate.
    + now rewrite (run_KeyError forecasts ic policy w _ Hne Hget).
Qed.

Lemma no_output_before_stop_or_KeyError_witness :
  filter shows_policy
    (fst (run (Loaded forecasts_example true policy_example)
              (mkWidgets "S1" "P1" 0.5 7 0.50 5.00 true))) = [] /\
  filter shows_policy
    (fst (run (LoadFailed "sku_forecasts.csv not found")
              (widgets_example "S1" "P1"))) = [].
Proof.
  split.
  - apply (no_output_before_stop_or_KeyError
             (Loaded forecasts_example true policy_example)
             (mkWidgets "S1" "P1" 0.5 7 0.50 5.00 true)).
    right.
    rewrite (run_KeyError forecasts_example true policy_example
               (mkWidgets "S1" "P1" 0.5 7 0.50 5.00 true) (KeyError 0.5)).
    + reflexivity.
    + simpl. rewrite sku_df_example_S1. discriminate.
    + change (dict_getitem z_map 0.5 = Raise (KeyError 0.5)).
      apply dict_getitem_Raise. split; [reflexivity|].
      rewrite z_map_keys. unfold service_levels. simpl.
      intros [H|[H|[H|[H|[]]]]]; lra.
  - apply (no_output_before_stop_or_KeyError
             (LoadFailed "sku_forecasts.csv not found")
             (widgets_example "S1" "P1")).
    left. reflexivity.
Defined.

(** ** The demand statistics (lines 99-100) *)

Lemma Series_sum_nonneg (s : Series) :
  Forall (fun x => 0 <= x) s -> 0 <= Series_sum s.
Proof.
  induction 1 as [|x s Hx Hs IH]; simpl; lra.
Qed.

Lemma Series_mean_nonneg (s : Series) :
  Forall (fun x => 0 <= x) s -> 0 <= Series_mean s.
Proof.
  intros Hs. unfold Series_mean.
  destruct s as [|x s].
  - simpl. unfold Rdiv. rewrite Rmult_0_l. lra.
  - apply Rmult_le_pos; [now apply Series_sum_nonneg|].
    apply Rlt_le, Rinv_0_lt_compat, lt_0_INR. simpl. lia.
Qed.

Lemma sigma_d_of_nonneg (sku_df : list Forecast.row) : 0 <= sigma_d_of sku_df.
Proof.
  unfold sigma_d_of, Series_std.
  destruct (1 <? List.length sku_df)%nat; [apply sqrt_pos | lra].
Qed.

Lemma Forall_column_prediction (P : R -> Prop) (df : list Forecast.row) :
  (forall r, In r df -> P (Forecast.prediction r)) ->
  Forall P (column Forecast.prediction df).
Proof.
  intros H. unfold column. apply Forall_forall.
  intros x Hx. apply in_map_iff in Hx. destruct Hx as (r & <- & Hr). auto.
Qed.

Lemma run_renders_costs (forecasts : list Forecast.row) (ic : bool)
    (policy : list Policy.row) (w : Widgets) (Z_ : R) :
  let sku_df := sku_df_of forecasts (selected_store w) (selected_product w) in
  let r := policy_formula Z_ (mu_d_of sku_df) (sigma_d_of sku_df)
             (lead_time_days w) (holding_cost w) (stockout_cost w) in
  sku_df <> [] ->
  dict_getitem z_map (service_level w) = Ok Z_ ->
  cost_charts (fst (run (Loaded forecasts ic policy) w)) =
    [[expected_hold r; expected_sout r; total_cost r]].
Proof.
  intros sku_df r Hne Hget. subst r. unfold run, app. rewrite Hget.
  fold sku_df.
  destruct sku_df as [|r0 sku] eqn:Hsku; [congruence|].
  reflexivity.
Qed.

(** Whatever the forecasts hold, negative predictions included, a run that
    reaches its end with the widgets in their declared ranges shows a safety
    stock and a total cost that are not negative; the three bars of the cost
    chart (holding cost, stockout cost, total cost) are not negative either.  When moreover no
    matching forecast line has a negative prediction, the average forecast
    and the reorder point are not negative. *)
Theorem run_figures_nonneg
    (forecasts : list Forecast.row) (ic : bool) (policy : list Policy.row)
    (w : Widgets) :
  let sku_df := sku_df_of forecasts (selected_store w) (selected_product w) in
  widgets_in_range w ->
  sku_df <> [] ->
  exists r,
    metrics (fst (run (Loaded forecasts ic policy) w)) =
      [("Avg Daily Forecast"%string, mu_d_of sku_df);
       ("Safety Stock"%string, safety_stock r);
       ("Reorder Point"%string, reorder_point r);
       ("Est. Daily Total Cost"%string, total_cost r)] /\
    cost_charts (fst (run (Loaded forecasts ic policy) w)) =
      [[expected_hold r; expected_sout r; total_cost r]] /\
    0 <= safety_stock r /\ 0 <= expected_hold r /\
    0 <= expected_sout r /\ 0 <= total_cost r /\
    ((forall x, In x forecasts ->
                Forecast.store_key x = selected_store w ->
                Forecast.prod_key x = selected_product w ->
                0 <= Forecast.prediction x) ->
     0 <= mu_d_of sku_df /\ 0 <= reorder_point r).
Proof.
  intros sku_df (Hin & HL & Hh & Hs) Hne.
  destruct (z_map_in_range _ Hin) as (z & Hz & Hget).
  destruct (run_renders forecasts ic policy w z Hne Hget) as (_ & Hm & _).
  pose proof (run_renders_costs forecasts ic policy w z Hne Hget) as Hc.
  eexists. split; [exact Hm|]. split; [exact Hc|].
  apply z_table_pos in Hz.
  pose proof (sigma_d_of_nonneg sku_df) as Hsigma.
  pose proof (sqrt_lead_time_nonneg (lead_time_days w)) as Hsqrt.
  unfold policy_formula.
  cbn [safety_stock reorder_point expected_hold expected_sout total_cost].
  fold sku_df.
  assert (Hss : 0 <= z * sigma_d_of sku_df * np_sqrt (IZR (lead_time_days w))).
  { apply Rmult_le_pos; [apply Rmult_le_pos; lra | exact Hsqrt]. }
  assert (Hhold : 0 <= z * sigma_d_of sku_df
                       * np_sqrt (IZR (lead_time_days w)) * holding_cost w).
  { now apply Rmult_le_pos. }
  assert (Hsout : 0 <= sigma_d_of sku_df * 0.10 * stockout_cost w).
  { apply Rmult_le_pos; [apply Rmult_le_pos; lra | exact Hs]. }
  split; [exact Hss|]. split; [exact Hhold|]. split; [exact Hsout|].
  split; [lra|].
  intros Hpred.
  assert (Hmu : 0 <= mu_d_of sku_df).
  { unfold mu_d_of. apply Series_mean_nonneg, Forall_column_prediction.
    intros x Hx.
    apply sku_df_of_In in Hx.
    destruct Hx as (Hx & Hs1 & Hp1). now apply Hpred. }
  split; [exact Hmu|].
  assert (0 <= IZR (lead_time_days w)) by (apply IZR_le; lia).
  assert (0 <= mu_d_of sku_df * IZR (lead_time_days w))
    by (now apply Rmult_le_pos).
  lra.
Qed.

Lemma widgets_example_in_range (store product : string) :
  widgets_in_range (widgets_example store product).
Proof.
  unfold widgets_in_range, widgets_example, service_levels. simpl.
  repeat split; try lia; try lra; tauto.
Qed.

Lemma run_figures_nonneg_witness :
  let w := widgets_example "S1" "P1" in
  let sku_df := sku_df_of forecasts_example "S1" "P1" in
  exists r,
    metrics (fst (run (Loaded forecasts_example true policy_example) w)) =
      [("Avg Daily Forecast"%string, mu_d_of sku_df);
       ("Safety Stock"%string, safety_stock r);
       ("Reorder Point"%string, reorder_point r);
       ("Est. Daily Total Cost"%string, total_cost r)] /\
    cost_charts
      (fst (run (Loaded forecasts_example true policy_example) w)) =
      [[expected_hold r; expected_sout r; total_cost r]] /\
    0 <= safety_stock r /\ 0 <= expected_hold r /\
    0 <= expected_sout r /\ 0 <= total_cost r /\
    ((forall x, In x forecasts_example ->
                Forecast.store_key x = "S1"%string ->
                Forecast.prod_key x = "P1"%string ->
                0 <= Forecast.prediction x) ->
     0 <= mu_d_of sku_df /\ 0 <= reorder_point r).
Proof.
  apply (run_figures_nonneg forecasts_example true policy_example
           (widgets_example "S1" "P1")).
  - apply widgets_example_in_range.
  - simpl. rewrite sku_df_example_S1. discriminate.
Defined.

(** A selection with a single forecast record: the average shown is that
    record's prediction, and the safety stock, reorder point and total cost
    are the formulas at sigma_d = 5.0. *)
Theorem single_record_run
    (forecasts : list Forecast.row) (ic : bool) (policy : list Policy.row)
    (w : Widgets) (r0 : Forecast.row) :
  In (service_level w) service_levels ->
  sku_df_of forecasts (selected_store w) (selected_product w) = [r0] ->
  exists z,
    z_table (service_level w) z /\
    metrics (fst (run (Loaded forecasts ic policy) w)) =
      [("Avg Daily Forecast"%string, Forecast.prediction r0);
       ("Safety Stock"%string, z * 5.0 * sqrt (IZR (lead_time_days w)));
       ("Reorder Point"%string,
        Forecast.prediction r0 * IZR (lead_time_days w)
        + z * 5.0 * sqrt (IZR (lead_time_days w)));
       ("Est. Daily Total Cost"%string,
        z * 5.0 * sqrt (IZR (lead_time_days w)) * holding_cost w
        + 5.0 * 0.10 * stockout_cost w)].
Proof.
  intros Hin Hsku.
  destruct (z_map_in_range _ Hin) as (z & Hz & Hget).
  assert (Hne : sku_df_of forecasts (selected_store w) (selected_product w)
                <> []) by (rewrite Hsku; discriminate).
  destruct (run_renders forecasts ic policy w z Hne Hget) as (_ & Hm & _).
  exists z. split; [exact Hz|].
  rewrite Hm, Hsku.
  assert (Hmu : mu_d_of [r0] = Forecast.prediction r0).
  { unfold mu_d_of, Series_mean. simpl. field. }
  rewrite Hmu. reflexivity.
Qed.

Lemma single_record_run_witness :
  exists z,
    z_table 0.95 z /\
    metrics (fst (run (Loaded forecasts_example true policy_example)
                      (widgets_example "S2" "P2"))) =
      [("Avg Daily Forecast"%string, 30);
       ("Safety Stock"%string, z * 5.0 * sqrt (IZR 7));
       ("Reorder Point"%string, 30 * IZR 7 + z * 5.0 * sqrt (IZR 7));
       ("Est. Daily Total Cost"%string,
        z * 5.0 * sqrt (IZR 7) * 0.50 + 5.0 * 0.10 * 5.00)].
Proof.
  apply (single_record_run forecasts_example true policy_example
           (widgets_example "S2" "P2") (Forecast.mkRow "S2" "P2" 1 30 33 27)).
  - unfold service_levels; simpl; tauto.
  - apply sku_df_example_S2.
Defined.


(** ** The full policy table (lines 196-227) *)

Lemma length_Series_add (s1 s2 : Series) :
  List.length (Series_add s1 s2)
  = Nat.min (List.length s1) (List.length s2).
Proof.
  revert s2. induction s1 as [|x s1 IH]; intros [|y s2]; simpl;
    try reflexivity.
  now rewrite IH.
Qed.

(** The copy of the policy table is left as loaded, and each of the five
    added columns has one cell per line of the table: the vectorised sums
    never run short of operands. *)
Theorem policy_live_columns_aligned
    (Z_ : R) (L : Z) (h s : R) (policy : list Policy.row) :
  let df := policy_live_of Z_ L h s policy in
  Live.policy df = policy /\
  List.length (Live.safety_stock df) = List.length policy /\
  List.length (Live.reorder_point df) = List.length policy /\
  List.length (Live.holding_cost df) = List.length policy /\
  List.length (Live.stockout_cost df) = List.length policy /\
  List.length (Live.total_cost df) = List.length policy.
Proof.
  unfold policy_live_of. simpl.
  unfold Series_mul_scalar, scalar_mul_Series, column.
  repeat rewrite ?length_Series_add, ?length_map, ?Nat.min_id.
  repeat split; reflexivity.
Qed.

Lemma display_row_policy_live_of
    (Z_ : R) (L : Z) (h s : R) (policy : list Policy.row) (i : nat) :
  display_row (policy_live_of Z_ L h s policy) i
  = option_map (display_of Z_ L h s) (nth_error policy i).
Proof.
  unfold display_row. rewrite live_result_policy_live_of.
  change (Live.policy (policy_live_of Z_ L h s policy)) with policy.
  destruct (nth_error policy i) as [p|]; reflexivity.
Qed.

Lemma flat_map_nth_error_seq {A B : Type} (g : A -> B) (l : list A) :
  flat_map (fun i => match option_map g (nth_error l i) with
                     | Some r => [r]
                     | None => []
                     end)
           (seq 0 (List.length l))
  = map g l.
Proof.
  induction l as [|a l IH]; simpl; [reflexivity|].
  f_equal. rewrite <- seq_shift, flat_map_concat_map, map_map.
  rewrite <- flat_map_concat_map. exact IH.
Qed.

Lemma filter_map_commute {A B : Type} (g : A -> B) (f : B -> bool)
    (l : list A) :
  filter f (map g l) = map g (filter (fun a => f (g a)) l).
Proof.
  induction l as [|a l IH]; simpl; [reflexivity|].
  destruct (f (g a)); simpl; now rewrite IH.
Qed.

(** The table shown has one line per line of the policy table, in the same
    order, each computed from that line alone; with the box "selected store
    only" ticked it keeps exactly the lines of the selected store, still in
    order. *)
Theorem display_df_lines
    (Z_ : R) (L : Z) (h s : R) (policy : list Policy.row) (w : Widgets) :
  display_df_of (policy_live_of Z_ L h s policy) w
  = map (display_of Z_ L h s)
        (if selected_store_only w
         then filter (fun p => String.eqb (Policy.store_key p)
                                          (selected_store w)) policy
         else policy).
Proof.
  unfold display_df_of.
  change (Live.policy (policy_live_of Z_ L h s policy)) with policy.
  rewrite (flat_map_ext _
             (fun i => match option_map (display_of Z_ L h s)
                               (nth_error policy i) with
                       | Some r => [r]
                       | None => []
                       end)).
  - rewrite flat_map_nth_error_seq.
    destruct (selected_store_only w); [|reflexivity].
    apply filter_map_commute.
  - intros i. now rewrite display_row_policy_live_of.
Qed.

Lemma Forall_Series_add (P Q T : R -> Prop) (s1 s2 : Series) :
  (forall x y, P x -> Q y -> T (x + y)) ->
  Forall P s1 -> Forall Q s2 -> Forall T (Series_add s1 s2).
Proof.
  intros HT H1. revert s2.
  induction H1 as [|x s1 Hx H1 IH]; intros s2 H2; simpl.
  - constructor.
  - destruct H2 as [|y s2 Hy H2]; constructor; auto.
Qed.

(** When no line of the policy table has a negative sigma_d, a positive z,
    a lead time >= 0 and costs >= 0 give a table without any negative safety
    stock, holding cost, stockout cost or total cost; when moreover no line
    has a negative mu_d, no reorder point is negative. *)
Theorem policy_live_nonneg
    (Z_ : R) (L : Z) (h s : R) (policy : list Policy.row) :
  let df := policy_live_of Z_ L h s policy in
  0 <= Z_ -> (0 <= L)%Z -> 0 <= h -> 0 <= s ->
  Forall (fun p => 0 <= Policy.sigma_d p) policy ->
  Forall (fun x => 0 <= x) (Live.safety_stock df) /\
  Forall (fun x => 0 <= x) (Live.holding_cost df) /\
  Forall (fun x => 0 <= x) (Live.stockout_cost df) /\
  Forall (fun x => 0 <= x) (Live.total_cost df) /\
  (Forall (fun p => 0 <= Policy.mu_d p) policy ->
   Forall (fun x => 0 <= x) (Live.reorder_point df)).
Proof.
  intros df HZ HL Hh Hs Hsigma. subst df. unfold policy_live_of. simpl.
  pose proof (sqrt_lead_time_nonneg L) as Hsqrt.
  pose proof (IZR_le _ _ HL) as HL'.
  assert (Hss : Forall (fun x => 0 <= x)
                  (Series_mul_scalar
                     (scalar_mul_Series Z_ (column Policy.sigma_d policy))
                     (np_sqrt (IZR L)))).
  { unfold Series_mul_scalar, scalar_mul_Series, column.
    rewrite !map_map. apply Forall_map.
    eapply Forall_impl; [|exact Hsigma]. simpl. intros p Hp.
    apply Rmult_le_pos; [apply Rmult_le_pos|]; assumption. }
  assert (Hhold : Forall (fun x => 0 <= x)
                    (Series_mul_scalar
                       (Series_mul_scalar
                          (scalar_mul_Series Z_ (column Policy.sigma_d policy))
                          (np_sqrt (IZR L))) h)).
  { unfold Series_mul_scalar at 1. apply Forall_map.
    eapply Forall_impl; [|exact Hss]. simpl. intros x Hx.
    now apply Rmult_le_pos. }
  assert (Hsout : Forall (fun x => 0 <= x)
                    (Series_mul_scalar
                       (Series_mul_scalar (column Policy.sigma_d policy) 0.10)
                       s)).
  { unfold Series_mul_scalar, column. rewrite !map_map. apply Forall_map.
    eapply Forall_impl; [|exact Hsigma]. simpl. intros p Hp.
    apply Rmult_le_pos; [apply Rmult_le_pos; lra | exact Hs]. }
  split; [exact Hss|]. split; [exact Hhold|]. split; [exact Hsout|].
  split.
  - apply (Forall_Series_add (fun x => 0 <= x) (fun x => 0 <= x));
      [intros; lra | exact Hhold | exact Hsout].
  - intros Hmu.
    apply (Forall_Series_add (fun x => 0 <= x) (fun x => 0 <= x));
      [intros; lra | | exact Hss].
    unfold Series_mul_scalar, column. rewrite map_map. apply Forall_map.
    eapply Forall_impl; [|exact Hmu]. simpl. intros p Hp.
    now apply Rmult_le_pos.
Qed.

Lemma policy_live_nonneg_witness :
  let df := policy_live_of 1.65 7 0.50 5.00 policy_example in
  Forall (fun x => 0 <= x) (Live.safety_stock df) /\
  Forall (fun x => 0 <= x) (Live.holding_cost df) /\
  Forall (fun x => 0 <= x) (Live.stockout_cost df) /\
  Forall (fun x => 0 <= x) (Live.total_cost df) /\
  (Forall (fun p => 0 <= Policy.mu_d p) policy_example ->
   Forall (fun x => 0 <= x) (Live.reorder_point df)).
Proof.
  apply (policy_live_nonneg 1.65 7 0.50 5.00 policy_example).
  - lra.
  - lia.
  - lra.
  - lra.
  - unfold policy_example. repeat constructor; simpl; lra.
Defined.

Lemma run_renders_tables (forecasts : list Forecast.row) (ic : bool)
    (policy : list Policy.row) (w : Widgets) (Z_ : R) :
  let sku_df := sku_df_of forecasts (selected_store w) (selected_product w) in
  let r := policy_formula Z_ (mu_d_of sku_df) (sigma_d_of sku_df)
             (lead_time_days w) (holding_cost w) (stockout_cost w) in
  let d := display_df_of
             (policy_live_of Z_ (lead_time_days w) (holding_cost w)
                             (stockout_cost w) policy) w in
  sku_df <> [] ->
  dict_getitem z_map (service_level w) = Ok Z_ ->
  display_tables (fst (run (Loaded forecasts ic policy) w)) = [d] /\
  downloads (fst (run (Loaded forecasts ic policy) w)) = [d] /\
  forecast_charts (fst (run (Loaded forecasts ic policy) w)) =
    [(column Forecast.date sku_df,
      if ic then Some (column Forecast.upper_95 sku_df,
                       column Forecast.lower_95 sku_df)
      else None,
      column Forecast.prediction sku_df,
      reorder_point r)].
Proof.
  intros sku_df r d Hne Hget. subst r d. unfold run, app. rewrite Hget.
  fold sku_df.
  destruct sku_df as [|r0 sku] eqn:Hsku; [congruence|].
  repeat split.
Qed.

(** On a run that reaches its end, the rows handed to the download button are
    the rows of the table on screen, the store filter included, and they are
    computed from the policy table, the z of the selected service level, the
    lead time, the two costs, the selected store and the check box alone: a
    second run on other forecasts and another product shows the same table. *)
Theorem download_is_displayed_table
    (forecasts forecasts' : list Forecast.row) (ic ic' : bool)
    (policy : list Policy.row) (w : Widgets) (product' : string) :
  let w' := mkWidgets (selected_store w) product' (service_level w)
              (lead_time_days w) (holding_cost w) (stockout_cost w)
              (selected_store_only w) in
  In (service_level w) service_levels ->
  sku_df_of forecasts (selected_store w) (selected_product w) <> [] ->
  sku_df_of forecasts' (selected_store w) product' <> [] ->
  exists z,
    z_table (service_level w) z /\
    display_tables (fst (run (Loaded forecasts ic policy) w)) =
      [display_df_of
         (policy_live_of z (lead_time_days w) (holding_cost w)
                         (stockout_cost w) policy) w] /\
    downloads (fst (run (Loaded forecasts ic policy) w)) =
    display_tables (fst (run (Loaded forecasts ic policy) w)) /\
    display_tables (fst (run (Loaded forecasts' ic' policy) w')) =
    display_tables (fst (run (Loaded forecasts ic policy) w)).
Proof.
  intros w' Hin Hne Hne'.
  destruct (z_map_in_range _ Hin) as (z & Hz & Hget).
  destruct (run_renders_tables forecasts ic policy w z Hne Hget)
    as (Hd & Hdl & _).
  destruct (run_renders_tables forecasts' ic' policy w' z Hne' Hget)
    as (Hd' & _ & _).
  exists z. split; [exact Hz|]. split; [exact Hd|].
  split; [now rewrite Hd, Hdl|].
  rewrite Hd, Hd'. reflexivity.
Qed.

Lemma download_is_displayed_table_witness :
  let w := widgets_example "S1" "P1" in
  let w' := widgets_example "S1" "P1" in
  exists z,
    z_table 0.95 z /\
    display_tables
      (fst (run (Loaded forecasts_example true policy_example) w)) =
      [display_df_of (policy_live_of z 7 0.50 5.00 policy_example) w] /\
    downloads (fst (run (Loaded forecasts_example true policy_example) w)) =
    display_tables
      (fst (run (Loaded forecasts_example true policy_example) w)) /\
    display_tables
      (fst (run (Loaded forecasts_example' false policy_example) w')) =
    display_tables
      (fst (run (Loaded forecasts_example true policy_example) w)).
Proof.
  apply (download_is_displayed_table forecasts_example forecasts_example'
           true false policy_example (widgets_example "S1" "P1") "P1").
  - unfold service_levels; simpl; tauto.
  - simpl. rewrite sku_df_example_S1. discriminate.
  - simpl. discriminate.
Defined.

Lemma column_date_Sorted (df : list Forecast.row) :
  Sorted date_le df -> Sorted Z.le (column Forecast.date df).
Proof.
  induction 1 as [|a l Hs IH Hhd]; simpl; constructor.
  - exact IH.
  - destruct Hhd; simpl; constructor. assumption.
Qed.

(** The forecast chart of a run that reaches its end: its dates are in
    ascending order, its curve has one prediction per date, the shaded band is
    drawn exactly when the table has both interval columns, and its dashed
    line is at the reorder point shown in the metric. *)
Theorem forecast_chart_of_run
    (forecasts : list Forecast.row) (ic : bool) (policy : list Policy.row)
    (w : Widgets) :
  In (service_level w) service_levels ->
  sku_df_of forecasts (selected_store w) (selected_product w) <> [] ->
  exists x band y hline,
    forecast_charts (fst (run (Loaded forecasts ic policy) w)) =
      [(x, band, y, hline)] /\
    Sorted Z.le x /\
    List.length x = List.length y /\
    y = column Forecast.prediction
          (sku_df_of forecasts (selected_store w) (selected_product w)) /\
    (band <> None <-> ic = true) /\
    In ("Reorder Point"%string, hline)
       (metrics (fst (run (Loaded forecasts ic policy) w))).
Proof.
  intros Hin Hne.
  destruct (z_map_in_range _ Hin) as (z & _ & Hget).
  destruct (run_renders_tables forecasts ic policy w z Hne Hget)
    as (_ & _ & Hc).
  destruct (run_renders forecasts ic policy w z Hne Hget) as (_ & Hm & _).
  do 4 eexists. split; [exact Hc|].
  split; [apply column_date_Sorted, sort_values_date_Sorted|].
  split; [unfold column; now rewrite !length_map|].
  split; [reflexivity|].
  split.
  - destruct ic; split; try discriminate; try reflexivity.
    intros H. now contradiction H.
  - rewrite Hm. simpl. tauto.
Qed.

Lemma forecast_chart_of_run_witness :
  let w := widgets_example "S1" "P1" in
  exists x band y hline,
    forecast_charts
      (fst (run (Loaded forecasts_example true policy_example) w)) =
      [(x, band, y, hline)] /\
    Sorted Z.le x /\
    List.length x = List.length y /\
    y = column Forecast.prediction (sku_df_of forecasts_example "S1" "P1") /\
    (band <> None <-> true = true) /\
    In ("Reorder Point"%string, hline)
       (metrics (fst (run (Loaded forecasts_example true policy_example) w))).
Proof.
  apply (forecast_chart_of_run forecasts_example true policy_example
           (widgets_example "S1" "P1")).
  - unfold service_levels; simpl; tauto.
  - simpl. rewrite sku_df_example_S1. discriminate.
Defined.

(** ** The comparison table (lines 182-188) *)

Lemma Int_part_le (x y : R) : x <= y -> (Int_part x <= Int_part y)%Z.
Proof.
  intros Hxy.
  destruct (base_Int_part x) as [Hx1 Hx2].
  destruct (base_Int_part y) as [Hy1 Hy2].
  assert (H : IZR (Int_part x) < IZR (Int_part y + 1)).
  { rewrite plus_IZR. lra. }
  apply lt_IZR in H. lia.
Qed.

Lemma py_round_error (x : R) : Rabs (IZR (py_round x) - x) <= 1 / 2.
Proof.
  unfold py_round.
  destruct (base_Int_part x) as [H1 H2].
  destruct (Rlt_dec (x - IZR (Int_part x)) (1 / 2)) as [Hlo|Hlo].
  - apply Rabs_le. lra.
  - destruct (Rlt_dec (1 / 2) (x - IZR (Int_part x))) as [Hhi|Hhi].
    + rewrite plus_IZR. apply Rabs_le. lra.
    + destruct (Z.even (Int_part x)).
      * apply Rabs_le. lra.
      * rewrite plus_IZR. apply Rabs_le. lra.
Qed.

Lemma py_round_monotone (x y : R) :
  x <= y -> (py_round x <= py_round y)%Z.
Proof.
  intros Hxy. pose proof (Int_part_le x y Hxy) as Hf.
  unfold py_round.
  destruct (Z.eq_dec (Int_part x) (Int_part y)) as [E|N].
  - rewrite <- E.
    destruct (Rlt_dec (x - IZR (Int_part x)) (1 / 2));
      destruct (Rlt_dec (1 / 2) (x - IZR (Int_part x)));
      destruct (Rlt_dec (y - IZR (Int_part x)) (1 / 2));
      destruct (Rlt_dec (1 / 2) (y - IZR (Int_part x)));
      destruct (Z.even (Int_part x)); try lia; lra.
  - destruct (Rlt_dec (x - IZR (Int_part x)) (1 / 2));
      destruct (Rlt_dec (1 / 2) (x - IZR (Int_part x)));
      destruct (Rlt_dec (y - IZR (Int_part y)) (1 / 2));
      destruct (Rlt_dec (1 / 2) (y - IZR (Int_part y)));
      destruct (Z.even (Int_part x));
      destruct (Z.even (Int_part y)); lia.
Qed.

(** Each figure of the comparison table differs from the figure the
    calculator returns for that service level by at most one half. *)
Theorem comparison_rows_within_half
    (mu sigma : R) (L : Z) (h s : R) :
  Forall2
    (fun sl row =>
       exists r,
         policy_calculator sl mu sigma L h s = Ok r /\
         Rabs (IZR (Comparison.Safety_Stock row) - safety_stock r) <= 1 / 2 /\
         Rabs (IZR (Comparison.Reorder_Point row) - reorder_point r)
         <= 1 / 2)
    service_levels (comparison_rows mu sigma L).
Proof.
  unfold service_levels, comparison_rows, dict_items, z_map.
  unfold policy_calculator. simpl map.
  constructor;
    [rewrite z_map_090; eexists; split; [reflexivity|];
     split; apply py_round_error|].
  constructor;
    [rewrite z_map_095; eexists; split; [reflexivity|];
     split; apply py_round_error|].
  constructor;
    [rewrite z_map_097; eexists; split; [reflexivity|];
     split; apply py_round_error|].
  constructor;
    [rewrite z_map_099; eexists; split; [reflexivity|];
     split; apply py_round_error|].
  constructor.
Qed.

(** With sigma_d >= 0 the safety-stock column and the reorder-point column of
    the comparison table never decrease from one line to the next, whatever
    mu_d and the lead time are: rounding keeps the order of the service
    levels. *)
Theorem comparison_columns_nondecreasing (mu sigma : R) (L : Z) :
  0 <= sigma ->
  Sorted Z.le (map Comparison.Safety_Stock (comparison_rows mu sigma L)) /\
  Sorted Z.le (map Comparison.Reorder_Point (comparison_rows mu sigma L)).
Proof.
  intros Hsigma.
  pose proof (sqrt_lead_time_nonneg L) as Hsqrt.
  assert (Hstep : forall z1 z2, z1 <= z2 ->
            z1 * sigma * np_sqrt (IZR L) <= z2 * sigma * np_sqrt (IZR L)).
  { intros z1 z2 Hz. apply Rmult_le_compat_r; [exact Hsqrt|].
    now apply Rmult_le_compat_r. }
  unfold comparison_rows, dict_items, z_map. simpl.
  split.
  - repeat (constructor; try (apply py_round_monotone, Hstep; lra)).
  - repeat (constructor;
            try (apply py_round_monotone, Rplus_le_compat_l, Hstep; lra)).
Qed.

Lemma comparison_columns_nondecreasing_witness :
  Sorted Z.le (map Comparison.Safety_Stock (comparison_rows 100 10 7)) /\
  Sorted Z.le (map Comparison.Reorder_Point (comparison_rows 100 10 7)).
Proof.
  apply (comparison_columns_nondecreasing 100 10 7). lra.
Defined.

(** On a run that reaches its end, the comparison table has a line for the
    selected service level whose two figures are the safety stock and the
    reorder point of the metrics, rounded. *)
Theorem comparison_row_of_selected_level
    (forecasts : list Forecast.row) (ic : bool) (policy : list Policy.row)
    (w : Widgets) :
  In (service_level w) service_levels ->
  sku_df_of forecasts (selected_store w) (selected_product w) <> [] ->
  exists rows row ss rop,
    comparison_tables (fst (run (Loaded forecasts ic policy) w)) = [rows] /\
    In row rows /\
    In ("Safety Stock"%string, ss)
       (metrics (fst (run (Loaded forecasts ic policy) w))) /\
    In ("Reorder Point"%string, rop)
       (metrics (fst (run (Loaded forecasts ic policy) w))) /\
    Comparison.Service_Level row = py_int (service_level w * 100) /\
    Comparison.Safety_Stock row = py_round ss /\
    Comparison.Reorder_Point row = py_round rop.
Proof.
  intros Hin Hne.
  assert (Hcases :
    exists z, dict_getitem z_map (service_level w) = Ok z /\
              In (service_level w, z) z_map).
  { destruct (z_map_in_range _ Hin) as (z & _ & Hget).
    exists z. split; [exact Hget | now apply dict_getitem_Ok_In]. }
  destruct Hcases as (z & Hget & Hitem).
  destruct (run_renders forecasts ic policy w z Hne Hget) as (_ & Hm & Hc).
  eexists. eexists. eexists. eexists.
  split; [exact Hc|].
  split.
  - unfold comparison_rows, dict_items. apply in_map_iff.
    exists (service_level w, z). split; [reflexivity | exact Hitem].
  - rewrite Hm. simpl. repeat split; tauto.
Qed.

Lemma comparison_row_of_selected_level_witness :
  let w := widgets_example "S1" "P1" in
  exists rows row ss rop,
    comparison_tables
      (fst (run (Loaded forecasts_example true policy_example) w)) = [rows] /\
    In row rows /\
    In ("Safety Stock"%string, ss)
       (metrics (fst (run (Loaded forecasts_example true policy_example) w)))
    /\
    In ("Reorder Point"%string, rop)
       (metrics (fst (run (Loaded forecasts_example true policy_example) w)))
    /\
    Comparison.Service_Level row = py_int (0.95 * 100) /\
    Comparison.Safety_Stock row = py_round ss /\
    Comparison.Reorder_Point row = py_round rop.
Proof.
  apply (comparison_row_of_selected_level forecasts_example true
           policy_example (widgets_example "S1" "P1")).
  - unfold service_levels; simpl; tauto.
  - simpl. rewrite sku_df_example_S1. discriminate.
Defined.

(** ** Safety stock and lead time (line 102) *)

(** Unlike the reorder point, the safety stock never decreases when the lead
    time grows, whatever the sign of mu_d: for sigma_d >= 0 and lead times
    0 <= L1 <= L2 the safety stock and the holding cost at L1 are at most
    those at L2 (the holding cost for a cost per unit >= 0), and the stockout
    cost is the same at both. *)
Theorem safety_stock_monotone_in_lead_time
    (mu sigma sl : R) (L1 L2 : Z) (h s : R) :
  0 <= sigma ->
  In sl service_levels ->
  (0 <= L1)%Z -> (L1 <= L2)%Z ->
  exists r1 r2,
    policy_calculator sl mu sigma L1 h s = Ok r1 /\
    policy_calculator sl mu sigma L2 h s = Ok r2 /\
    safety_stock r1 <= safety_stock r2 /\
    (0 <= h -> expected_hold r1 <= expected_hold r2) /\
    expected_sout r1 = expected_sout r2.
Proof.
  intros Hsigma Hin H1 H12.
  destruct (z_map_in_range sl Hin) as (z & Hz & Hget).
  unfold policy_calculator. rewrite Hget.
  do 2 eexists. split; [reflexivity|]. split; [reflexivity|].
  simpl. apply z_table_pos in Hz.
  assert (Hss : z * sigma * np_sqrt (IZR L1) <= z * sigma * np_sqrt (IZR L2)).
  { apply Rmult_le_compat_l; [apply Rmult_le_pos; lra|].
    now apply np_sqrt_monotone. }
  split; [exact Hss|]. split; [|reflexivity].
  intros Hh. now apply Rmult_le_compat_r.
Qed.

Lemma safety_stock_monotone_in_lead_time_witness :
  exists r1 r2,
    policy_calculator 0.95 (-3) 10 7 0.50 5.00 = Ok r1 /\
    policy_calculator 0.95 (-3) 10 14 0.50 5.00 = Ok r2 /\
    safety_stock r1 <= safety_stock r2 /\
    (0 <= 0.50 -> expected_hold r1 <= expected_hold r2) /\
    expected_sout r1 = expected_sout r2.
Proof.
  apply (safety_stock_monotone_in_lead_time (-3) 10 0.95 7 14 0.50 5.00).
  - lra.
  - unfold service_levels; simpl; tauto.
  - lia.
  - lia.
Defined.

